(** * The [nexus_security_user] resource of terraform-provider-nexus

    A shallow embedding of [nexus/resource_security_user.go]: the schema
    descriptor and the five lifecycle callbacks (Create, Read, Update,
    Delete, Exists), together with a model of the two things they talk to:

    - the plugin SDK's [*schema.ResourceData] (the [d] argument), with its
      prior state, its planned values, the values written by [d.Set] and
      the resource id;
    - the Nexus client's user service (the [m] argument), as an interface
      over an abstract server state.

    Every callback is a computation that may change [d], may change the
    server, returns a Go [error] (here [option error], [None] being [nil])
    and records the client calls it issues. *)

From Stdlib Require Import Ascii.
From stdpp Require Import gmap strings list fin_maps.

Set Warnings "-register-all".
Open Scope string_scope.

(* ===================================================================== *)
(** ** Go values                                                          *)
(* ===================================================================== *)

(** A Go [error] value; [nil] is [None] of [option error]. *)
Definition error : Type := string.

(** The dynamic values ([interface{}]) that cross the SDK boundary in this
    file: [nil], a [string], a [[]interface{}] and a [*schema.Set] whose
    element schema is [TypeString]. *)
Inductive Value : Type :=
| VNil
| VString (s : string)
| VList (l : list Value)
| VSet (s : gset string).

#[global] Instance Value_eq_dec : EqDecision Value.
Proof.
  refine (fix go (a b : Value) {struct a} : Decision (a = b) :=
    match a, b with
    | VNil, VNil => left _
    | VString s, VString t => cast_if (decide (s = t))
    | VSet s, VSet t => cast_if (decide (s = t))
    | VList l, VList k => cast_if (@list_eq_dec _ go l k)
    | _, _ => right _
    end); abstract congruence.
Defined.

(** The type assertion [v.(string)].  On a value of another dynamic type Go
    panics; [d_Get_TypeString] below shows that the values asserted in this
    file always are strings, so the default is never reached. *)
Definition as_string (v : Value) : string :=
  match v with VString s => s | _ => "" end.

(** The type assertion [v.( *schema.Set)], same remark ([d_Get_TypeSet]). *)
Definition as_set (v : Value) : gset string :=
  match v with VSet s => s | _ => ∅ end.

(** [List()] of a [schema.Set]: the elements, without duplicates, in an order
    fixed by the implementation. *)
Definition Set_List (s : gset string) : list Value :=
  VString <$> elements s.

(** Modelled from the spec: the helper [interfaceSliceToStringSlice] is
    declared in another file of the package; roles are role names (a set of
    strings), and the helper turns the [[]interface{}] listing of that set
    into a [[]string], element by element ([v.(string)]). *)
Fixpoint interfaceSliceToStringSlice (data : list Value) : list string :=
  match data with
  | [] => []
  | v :: rest => as_string v :: interfaceSliceToStringSlice rest
  end.

(** Modelled from the spec: the helper [stringSliceToInterfaceSlice] is
    declared in another file of the package; it is the converse conversion,
    boxing each string of a [[]string] into an [interface{}]. *)
Fixpoint stringSliceToInterfaceSlice (strings : list string) : list Value :=
  match strings with
  | [] => []
  | s :: rest => VString s :: stringSliceToInterfaceSlice rest
  end.

(** [security.User] of the client library, with the fields this file
    populates. *)
Record User : Type := mkUser {
  UserID : string;
  FirstName : string;
  LastName : string;
  EmailAddress : string;
  Password : string;
  Status : string;
  Roles : list string
}.

#[global] Instance User_eq_dec : EqDecision User.
Proof. solve_decision. Defined.

(* ===================================================================== *)
(** ** The schema vocabulary of the plugin SDK                            *)
(* ===================================================================== *)

Inductive ValueType : Type := TypeString | TypeSet.

#[global] Instance ValueType_eq_dec : EqDecision ValueType.
Proof. solve_decision. Defined.

(** [schema.SchemaValidateFunc]: warnings and errors for a value and its
    key. *)
Definition SchemaValidateFunc : Type :=
  Value -> string -> list string * list error.

(** [schema.Schema]; a field the source leaves out has Go's zero value. *)
Record Schema : Type := mkSchema {
  Description : string;
  Type_ : ValueType;
  Elem : option ValueType;
  Required : bool;
  Optional : bool;
  ForceNew : bool;
  Sensitive : bool;
  Default : option Value;
  ValidateFunc : option SchemaValidateFunc
}.

Definition toLowerAscii (c : ascii) : ascii :=
  let n := nat_of_ascii c in
  if (65 <=? n)%nat && (n <=? 90)%nat then ascii_of_nat (n + 32) else c.

Fixpoint ToLower (s : string) : string :=
  match s with
  | EmptyString => EmptyString
  | String c rest => String (toLowerAscii c) (ToLower rest)
  end.

(** [validation.StringInSlice(valid, ignoreCase)] of the SDK: no error when
    the value is a string found in [valid], one error otherwise. *)
Definition StringInSlice (valid : list string) (ignoreCase : bool)
  : SchemaValidateFunc :=
  fun i k =>
    match i with
    | VString v =>
        if existsb (fun str =>
                      bool_decide (v = str)
                      || (ignoreCase && bool_decide (ToLower v = ToLower str)))
                   valid
        then ([], [])
        else ([], ["expected " ++ k ++ " to be one of ["
                   ++ String.concat " " valid ++ "], got " ++ v])
    | _ => ([], ["expected type of " ++ k ++ " to be string"])
    end.

(** The [Schema] map of [resourceSecurityUser]. *)
Definition resourceSecurityUserSchema : gmap string Schema :=
  list_to_map [
    ("userid",
     {| Description := "The userid which is required for login. This value cannot be changed.";
        ForceNew := true;
        Type_ := TypeString;
        Required := true;
        Elem := None; Optional := false; Sensitive := false;
        Default := None; ValidateFunc := None |});
    ("firstname",
     {| Description := "The first name of the user.";
        Type_ := TypeString;
        Required := true;
        Elem := None; Optional := false; ForceNew := false;
        Sensitive := false; Default := None; ValidateFunc := None |});
    ("lastname",
     {| Description := "The last name of the user.";
        Type_ := TypeString;
        Required := true;
        Elem := None; Optional := false; ForceNew := false;
        Sensitive := false; Default := None; ValidateFunc := None |});
    ("email",
     {| Description := "The email address associated with the user.";
        Type_ := TypeString;
        Required := true;
        Elem := None; Optional := false; ForceNew := false;
        Sensitive := false; Default := None; ValidateFunc := None |});
    ("password",
     {| Description := "The password for the user.";
        Type_ := TypeString;
        Required := true;
        Sensitive := true;
        Elem := None; Optional := false; ForceNew := false;
        Default := None; ValidateFunc := None |});
    ("roles",
     {| Description := "The roles which the user has been assigned within Nexus.";
        Elem := Some TypeString;
        Optional := true;
        Type_ := TypeSet;
        Required := false; ForceNew := false; Sensitive := false;
        Default := None; ValidateFunc := None |});
    ("status",
     {| Default := Some (VString "active");
        Description := "The user's status, e.g. active or disabled.";
        Type_ := TypeString;
        Optional := true;
        ValidateFunc := Some (StringInSlice ["active"; "disabled"] false);
        Elem := None; Required := false; ForceNew := false;
        Sensitive := false |})
  ].

(* ===================================================================== *)
(** ** [*schema.ResourceData]                                             *)
(* ===================================================================== *)

(** The SDK reads a key through three levels: the prior state, the planned
    values (prior state with the diff of the configuration, defaults
    applied) and the values written by [d.Set] during the callback.
    [rd_plan] holds the second level already merged. *)
Record ResourceData : Type := mkResourceData {
  rd_id : string;
  rd_state : gmap string Value;
  rd_plan : gmap string Value;
  rd_set : gmap string Value
}.

Definition zeroValue (t : ValueType) : Value :=
  match t with
  | TypeString => VString ""
  | TypeSet => VSet ∅
  end.

(** A field reader of the SDK: the stored value when it has the type the
    schema declares, the zero value of that type otherwise. *)
Definition readField (sch : Schema) (raw : option Value) : Value :=
  match Type_ sch, raw with
  | TypeString, Some (VString s) => VString s
  | TypeSet, Some (VSet s) => VSet s
  | t, _ => zeroValue t
  end.

(** [d.Get(key)]: the value at the topmost level that has one; [nil] for a
    key the schema does not declare. *)
Definition d_Get (d : ResourceData) (key : string) : Value :=
  match resourceSecurityUserSchema !! key with
  | None => VNil
  | Some sch =>
      readField sch (match rd_set d !! key with
                     | Some v => Some v
                     | None => rd_plan d !! key
                     end)
  end.

(** [d.GetChange(key)]: the prior and the planned value; values written by
    [d.Set] are not looked at. *)
Definition d_GetChange (d : ResourceData) (key : string) : Value * Value :=
  match resourceSecurityUserSchema !! key with
  | None => (VNil, VNil)
  | Some sch => (readField sch (rd_state d !! key),
                 readField sch (rd_plan d !! key))
  end.

(** [d.HasChange(key)]. *)
Definition d_HasChange (d : ResourceData) (key : string) : bool :=
  let '(o, n) := d_GetChange d key in
  negb (bool_decide (o = n)).

(** [d.Id()]. *)
Definition d_Id (d : ResourceData) : string := rd_id d.

(** [d.SetId(v)]. *)
Definition d_SetId (v : string) (d : ResourceData) : ResourceData :=
  {| rd_id := v; rd_state := rd_state d; rd_plan := rd_plan d;
     rd_set := rd_set d |}.

(** The strings of a [[]interface{}], when all its elements are strings. *)
Fixpoint stringsOf (l : list Value) : option (list string) :=
  match l with
  | [] => Some []
  | VString s :: rest =>
      match stringsOf rest with
      | Some ss => Some (s :: ss)
      | None => None
      end
  | _ :: _ => None
  end.

(** What the set-level writer stores for [value] under a schema, or [None]
    when the value does not fit the declared type. *)
Definition writeField (sch : Schema) (value : Value) : option Value :=
  match Type_ sch, value with
  | TypeString, VString s => Some (VString s)
  | TypeSet, VSet s => Some (VSet s)
  | TypeSet, VList l =>
      match stringsOf l with
      | Some ss => Some (VSet (list_to_set ss))
      | None => None
      end
  | _, _ => None
  end.

(** [d.Set(key, value)]: the new [d] and the error [d.Set] returns. *)
Definition d_Set (key : string) (value : Value) (d : ResourceData)
  : ResourceData * option error :=
  match resourceSecurityUserSchema !! key with
  | None => (d, Some ("Invalid address to set: " ++ key))
  | Some sch =>
      match writeField sch value with
      | Some v =>
          ({| rd_id := rd_id d; rd_state := rd_state d; rd_plan := rd_plan d;
              rd_set := <[key := v]> (rd_set d) |}, None)
      | None => (d, Some (key ++ ": value of unexpected type"))
      end
  end.

(* ===================================================================== *)
(** ** The client's user service                                          *)
(* ===================================================================== *)

(** [client.Security.User] of go-nexus-client, over a server state [S]:
    each operation returns what the Go method returns and the server state
    after the call. *)
Class UserService (S : Type) : Type := {
  User_Create : User -> S -> option error * S;
  User_Get : string -> S -> (option User * option error) * S;
  User_ChangePassword : string -> string -> S -> option error * S;
  User_Update : string -> User -> S -> option error * S;
  User_Delete : string -> S -> option error * S
}.

(** The client calls a callback issues, in order. *)
Inductive Call : Type :=
| CallCreate (user : User)
| CallGet (id : string)
| CallChangePassword (id password : string)
| CallUpdate (id : string) (user : User)
| CallDelete (id : string).

#[global] Instance Call_eq_dec : EqDecision Call.
Proof. solve_decision. Defined.

Definition isCallGet (c : Call) : bool :=
  match c with CallGet _ => true | _ => false end.
Definition isCallChangePassword (c : Call) : bool :=
  match c with CallChangePassword _ _ => true | _ => false end.
Definition isCallUpdate (c : Call) : bool :=
  match c with CallUpdate _ _ => true | _ => false end.
Definition isCallCreate (c : Call) : bool :=
  match c with CallCreate _ => true | _ => false end.

(** What running a callback on [d] and a server gives. *)
Record Outcome (S A : Type) : Type := mkOutcome {
  result : A;
  data : ResourceData;
  server : S;
  calls : list Call
}.
Arguments mkOutcome {S A}.
Arguments result {S A}.
Arguments data {S A}.
Arguments server {S A}.
Arguments calls {S A}.

Declare Scope go_scope.
Delimit Scope go_scope with go.

Section Callbacks.

Context {S : Type} `{UserService S}.

(** A callback body: state passing over [d] and the server, with the log
    of client calls. *)
Definition M (A : Type) : Type := ResourceData -> S -> Outcome S A.

Definition ret {A} (a : A) : M A :=
  fun d s => mkOutcome a d s [].

Definition bind {A B} (m : M A) (f : A -> M B) : M B :=
  fun d s =>
    match m d s with
    | mkOutcome a d1 s1 c1 =>
        match f a d1 s1 with
        | mkOutcome b d2 s2 c2 => mkOutcome b d2 s2 (c1 ++ c2)
        end
    end.

Notation "x <- m ;; k" := (bind m (fun x => k))
  (at level 100, m at next level, right associativity) : go_scope.
Notation "m ;; k" := (bind m (fun _ => k))
  (at level 100, right associativity) : go_scope.
Local Open Scope go_scope.

(** *** Methods of [d] *)

Definition Get (key : string) : M Value :=
  fun d s => mkOutcome (d_Get d key) d s [].
Definition HasChange (key : string) : M bool :=
  fun d s => mkOutcome (d_HasChange d key) d s [].
Definition Id : M string :=
  fun d s => mkOutcome (d_Id d) d s [].
Definition SetId (v : string) : M unit :=
  fun d s => mkOutcome tt (d_SetId v d) s [].
Definition Set_ (key : string) (value : Value) : M (option error) :=
  fun d s => let r := d_Set key value d in mkOutcome (snd r) (fst r) s [].

(** *** Methods of [client.Security.User] *)

Definition client_Create (user : User) : M (option error) :=
  fun d s =>
    let r := User_Create user s in
    mkOutcome (fst r) d (snd r) [CallCreate user].
Definition client_Get (id : string) : M (option User * option error) :=
  fun d s =>
    let r := User_Get id s in
    mkOutcome (fst r) d (snd r) [CallGet id].
Definition client_ChangePassword (id password : string) : M (option error) :=
  fun d s =>
    let r := User_ChangePassword id password s in
    mkOutcome (fst r) d (snd r) [CallChangePassword id password].
Definition client_Update (id : string) (user : User) : M (option error) :=
  fun d s =>
    let r := User_Update id user s in
    mkOutcome (fst r) d (snd r) [CallUpdate id user].
Definition client_Delete (id : string) : M (option error) :=
  fun d s =>
    let r := User_Delete id s in
    mkOutcome (fst r) d (snd r) [CallDelete id].

(** *** The callbacks of [resource_security_user.go] *)

Definition getSecurityUserFromResourceData (d : ResourceData) : User :=
  {| UserID := as_string (d_Get d "userid");
     FirstName := as_string (d_Get d "firstname");
     LastName := as_string (d_Get d "lastname");
     EmailAddress := as_string (d_Get d "email");
     Password := as_string (d_Get d "password");
     Status := as_string (d_Get d "status");
     Roles := interfaceSliceToStringSlice
                (Set_List (as_set (d_Get d "roles"))) |}.

Definition resourceSecurityUserRead : M (option error) :=
  id <- Id ;;
  r <- client_Get id ;;
  let '(user, err) := r in
  match err with
  | Some e => ret (Some e)
  | None =>
      match user with
      | None =>
          SetId "" ;;
          ret None
      | Some user =>
          Set_ "email" (VString (EmailAddress user)) ;;
          Set_ "firstname" (VString (FirstName user)) ;;
          Set_ "lastname" (VString (LastName user)) ;;
          Set_ "roles" (VList (stringSliceToInterfaceSlice (Roles user))) ;;
          Set_ "status" (VString (Status user)) ;;
          Set_ "userid" (VString (UserID user)) ;;
          ret None
      end
  end.

Definition resourceSecurityUserCreate : M (option error) :=
  fun d =>
    let user := getSecurityUserFromResourceData d in
    (err <- client_Create user ;;
     match err with
     | Some e => ret (Some e)
     | None =>
         SetId (UserID user) ;;
         resourceSecurityUserRead
     end) d.

Definition resourceSecurityUserUpdate : M (option error) :=
  pw <- HasChange "password" ;;
  err <- (if pw then
            password <- Get "password" ;;
            id <- Id ;;
            client_ChangePassword id (as_string password)
          else ret None) ;;
  match err with
  | Some e => ret (Some e)
  | None =>
      c1 <- HasChange "firstname" ;;
      c2 <- HasChange "lastname" ;;
      c3 <- HasChange "email" ;;
      c4 <- HasChange "status" ;;
      c5 <- HasChange "roles" ;;
      err <- (if c1 || c2 || c3 || c4 || c5 then
                fun d =>
                  let user := getSecurityUserFromResourceData d in
                  (id <- Id ;; client_Update id user) d
              else ret None) ;;
      match err with
      | Some e => ret (Some e)
      | None => resourceSecurityUserRead
      end
  end.

Definition resourceSecurityUserDelete : M (option error) :=
  id <- Id ;;
  err <- client_Delete id ;;
  match err with
  | Some e => ret (Some e)
  | None =>
      SetId "" ;;
      ret None
  end.

Definition resourceSecurityUserExists : M (bool * option error) :=
  id <- Id ;;
  r <- client_Get id ;;
  let '(user, err) := r in
  ret (bool_decide (user <> None), err).

(** [schema.Resource] and the descriptor [resourceSecurityUser]. *)
Inductive StateFunc : Type := ImportStatePassthrough.

Record Resource : Type := mkResource {
  Create : M (option error);
  Read : M (option error);
  Update : M (option error);
  Delete : M (option error);
  Exists : M (bool * option error);
  Importer : StateFunc;
  SchemaMap : gmap string Schema
}.

Definition resourceSecurityUser : Resource :=
  {| Create := resourceSecurityUserCreate;
     Read := resourceSecurityUserRead;
     Update := resourceSecurityUserUpdate;
     Delete := resourceSecurityUserDelete;
     Exists := resourceSecurityUserExists;
     Importer := ImportStatePassthrough;
     SchemaMap := resourceSecurityUserSchema |}.

End Callbacks.

(* ===================================================================== *)
(** ** The host runtime around the callbacks                              *)
(* ===================================================================== *)

(** The plugin SDK decides from the schema, before it runs any callback,
    whether a configuration is accepted, which values are planned and
    whether a change is applied in place.  This part is the SDK's, not the
    provider's: it is modelled here as far as the schema of this resource
    exercises it (required arguments, declared types, [ValidateFunc],
    [Default], [ForceNew]). *)

Definition typeOK (t : ValueType) (v : Value) : bool :=
  match t, v with
  | TypeString, VString _ => true
  | TypeSet, VSet _ => true
  | _, _ => false
  end.

Definition validateField (k : string) (sch : Schema) (raw : option Value)
  : list error :=
  match raw with
  | None => if Required sch then ["Missing required argument: " ++ k] else []
  | Some v =>
      if typeOK (Type_ sch) v then
        match ValidateFunc sch with
        | Some f => snd (f v k)
        | None => []
        end
      else [k ++ ": incorrect attribute value type"]
  end.

(** The errors of a configuration against a schema map. *)
Definition schemaValidate (schema : gmap string Schema)
  (cfg : gmap string Value) : list error :=
  (map_to_list schema ≫= λ '(k, sch), validateField k sch (cfg !! k))
  ++ (map_to_list cfg ≫= λ '(k, _),
        match schema !! k with
        | Some _ => []
        | None => ["Unsupported argument: " ++ k]
        end).

(** The planned values of a configuration: what is written, and the
    schema's [Default] for what is left out. *)
Definition planValues (schema : gmap string Schema)
  (cfg : gmap string Value) : gmap string Value :=
  map_imap (λ k sch, match cfg !! k with
                     | Some v => Some v
                     | None => Default sch
                     end) schema.

(** The [d] of a Create: no id, no prior state. *)
Definition newResourceData (cfg : gmap string Value) : ResourceData :=
  {| rd_id := ""; rd_state := ∅;
     rd_plan := planValues resourceSecurityUserSchema cfg; rd_set := ∅ |}.

(** The [d] of a change to an existing resource. *)
Definition changeResourceData (id : string) (state cfg : gmap string Value)
  : ResourceData :=
  {| rd_id := id; rd_state := state;
     rd_plan := planValues resourceSecurityUserSchema cfg; rd_set := ∅ |}.

(** A planned change requires a new resource when a [ForceNew] attribute
    changes. *)
Definition requiresNew (schema : gmap string Schema) (d : ResourceData)
  : bool :=
  existsb (λ '(k, sch), ForceNew sch && d_HasChange d k) (map_to_list schema).

Definition errorList (err : option error) : list error :=
  match err with Some e => [e] | None => [] end.

Section Host.

Context {S : Type} `{UserService S}.

(** Applying a configuration for a resource that does not exist yet. *)
Definition hostCreate (r : Resource) (cfg : gmap string Value) (s : S)
  : Outcome S (list error) :=
  match schemaValidate (SchemaMap r) cfg with
  | [] =>
      let o := Create r (newResourceData cfg) s in
      mkOutcome (errorList (result o)) (data o) (server o) (calls o)
  | errs => mkOutcome errs (newResourceData cfg) s []
  end.

(** Applying a changed configuration to an existing resource: in place
    through Update, or by Delete and Create when the plan requires a new
    resource. *)
Definition hostChange (r : Resource) (id : string)
  (state cfg : gmap string Value) (s : S) : Outcome S (list error) :=
  let d := changeResourceData id state cfg in
  match schemaValidate (SchemaMap r) cfg with
  | [] =>
      if requiresNew (SchemaMap r) d then
        let o1 := Delete r d s in
        match result o1 with
        | Some e => mkOutcome [e] (data o1) (server o1) (calls o1)
        | None =>
            let o2 := Create r (newResourceData cfg) (server o1) in
            mkOutcome (errorList (result o2)) (data o2) (server o2)
                      (calls o1 ++ calls o2)
        end
      else
        let o := Update r d s in
        mkOutcome (errorList (result o)) (data o) (server o) (calls o)
  | errs => mkOutcome errs d s []
  end.

End Host.

(* ===================================================================== *)
(** ** An in-memory user service                                          *)
(* ===================================================================== *)

(** A server that keeps the users it is given, and a fault hook that makes
    chosen calls fail.  Get returns the stored record without its
    password. *)
Record MemServer : Type := mkMemServer {
  users : gmap string User;
  fault : Call -> option error
}.

Definition withPassword (password : string) (u : User) : User :=
  {| UserID := UserID u; FirstName := FirstName u; LastName := LastName u;
     EmailAddress := EmailAddress u; Password := password;
     Status := Status u; Roles := Roles u |}.

Definition setUsers (us : gmap string User) (s : MemServer) : MemServer :=
  {| users := us; fault := fault s |}.

#[global] Instance memClient : UserService MemServer := {|
  User_Create u s :=
    match fault s (CallCreate u) with
    | Some e => (Some e, s)
    | None => (None, setUsers (<[UserID u := u]> (users s)) s)
    end;
  User_Get id s :=
    match fault s (CallGet id) with
    | Some e => ((None, Some e), s)
    | None => ((withPassword "" <$> users s !! id, None), s)
    end;
  User_ChangePassword id password s :=
    match fault s (CallChangePassword id password) with
    | Some e => (Some e, s)
    | None =>
        match users s !! id with
        | Some u => (None, setUsers (<[id := withPassword password u]> (users s)) s)
        | None => (Some ("user not found: " ++ id), s)
        end
    end;
  User_Update id u s :=
    match fault s (CallUpdate id u) with
    | Some e => (Some e, s)
    | None =>
        match users s !! id with
        | Some old => (None, setUsers (<[id := withPassword (Password old) u]> (users s)) s)
        | None => (Some ("user not found: " ++ id), s)
        end
    end;
  User_Delete id s :=
    match fault s (CallDelete id) with
    | Some e => (Some e, s)
    | None =>
        match users s !! id with
        | Some _ => (None, setUsers (delete id (users s)) s)
        | None => (Some ("user not found: " ++ id), s)
        end
    end
|}.

Definition noFault : Call -> option error := fun _ => None.

(** The example of the file's header. *)
Definition adminConfig : gmap string Value :=
  list_to_map [
    ("userid", VString "admin");
    ("firstname", VString "Administrator");
    ("lastname", VString "User");
    ("email", VString "nexus@example.com");
    ("password", VString "admin123");
    ("roles", VSet {[ "nx-admin" ]});
    ("status", VString "active")
  ].

Definition adminUser : User :=
  {| UserID := "admin"; FirstName := "Administrator"; LastName := "User";
     EmailAddress := "nexus@example.com"; Password := "admin123";
     Status := "active"; Roles := ["nx-admin"] |}.

Definition emptyServer : MemServer := {| users := ∅; fault := noFault |}.


Definition serverWith (us : list (string * User)) (f : Call -> option error)
  : MemServer :=
  {| users := list_to_map us; fault := f |}.

(** A fault hook that fails the calls selected by [sel] with [e]. *)
Definition failOn (sel : Call -> bool) (e : error) : Call -> option error :=
  fun c => if sel c then Some e else None.

(** The configuration of the header with another email address and another
    password. *)
Definition adminConfig2 : gmap string Value :=
  <["email" := VString "admin@example.com"]>
    (<["password" := VString "s3cret"]> adminConfig).

(** The configuration of the header with another email address only. *)
Definition adminConfig3 : gmap string Value :=
  <["email" := VString "admin@example.com"]> adminConfig.

(** [d] after the six [d.Set] calls of Read for a user the server returned,
    in the order of the source. *)
Definition readBack (user : User) (d : ResourceData) : ResourceData :=
  let d1 := fst (d_Set "email" (VString (EmailAddress user)) d) in
  let d2 := fst (d_Set "firstname" (VString (FirstName user)) d1) in
  let d3 := fst (d_Set "lastname" (VString (LastName user)) d2) in
  let d4 := fst (d_Set "roles"
                   (VList (stringSliceToInterfaceSlice (Roles user))) d3) in
  let d5 := fst (d_Set "status" (VString (Status user)) d4) in
  fst (d_Set "userid" (VString (UserID user)) d5).

Arguments d_Get : simpl never.
Arguments d_Set : simpl never.
Arguments d_HasChange : simpl never.
Arguments getSecurityUserFromResourceData : simpl never.

(** The condition of the second [if] of Update: one of the fields the
    general update call carries has changed. *)
Definition profileChanged (d : ResourceData) : bool :=
  d_HasChange d "firstname" || d_HasChange d "lastname"
  || d_HasChange d "email" || d_HasChange d "status"
  || d_HasChange d "roles".

(** The [d] of an Update of the header's user to [adminConfig2] (email and
    password change) and to [adminConfig3] (email only). *)
Definition adminChange2 : ResourceData :=
  changeResourceData "admin" adminConfig adminConfig2.
Definition adminChange3 : ResourceData :=
  changeResourceData "admin" adminConfig adminConfig3.

(** A server that holds the header's user. *)
Definition adminServer (f : Call -> option error) : MemServer :=
  serverWith [("admin", adminUser)] f.

(** [u'] is [u] as far as the fields other than the password go, the roles
    compared as sets: what a client that stores the user it is given
    returns for it. *)
Definition sameProfile (u u' : User) : Prop :=
  UserID u' = UserID u
  /\ FirstName u' = FirstName u
  /\ LastName u' = LastName u
  /\ EmailAddress u' = EmailAddress u
  /\ Status u' = Status u
  /\ (list_to_set (Roles u') : gset string) = list_to_set (Roles u).

(** The user a call addresses: the id argument, or the login id of the
    record for a create call. *)
Definition callKey (c : Call) : string :=
  match c with
  | CallCreate user => UserID user
  | CallGet id => id
  | CallChangePassword id _ => id
  | CallUpdate id _ => id
  | CallDelete id => id
  end.

(** The header's configuration with a status outside the enumeration, with
    no status at all, and with another userid. *)
Definition bogusStatusConfig : gmap string Value :=
  <["status" := VString "locked"]> adminConfig.
Definition noStatusConfig : gmap string Value :=
  delete "status" adminConfig.
Definition renamedConfig : gmap string Value :=
  <["userid" := VString "root"]> adminConfig.

(** The [d] the importer hands to Read.  [ImportStatePassthrough] of the
    SDK returns the [d] it is given, which holds the id typed by the
    operator and nothing else. *)
Definition importResourceData (f : StateFunc) (id : string) : ResourceData :=
  match f with
  | ImportStatePassthrough =>
      {| rd_id := id; rd_state := ∅; rd_plan := ∅; rd_set := ∅ |}
  end.

(** The [d] of an Update in which the userid alone differs from the prior
    state (a plan the host would not hand to Update). *)
Definition adminChangeUserid : ResourceData :=
  changeResourceData "admin" adminConfig renamedConfig.

(** The parts of [d] no callback writes: the prior state, the planned
    values and the password. *)
Definition untouched (d d' : ResourceData) : Prop :=
  rd_state d' = rd_state d
  /\ rd_plan d' = rd_plan d
  /\ rd_set d' !! "password" = rd_set d !! "password".

(* ===================================================================== *)
(** ** Basic facts about the model                                        *)
(* ===================================================================== *)

Lemma interfaceSliceToStringSlice_box (l : list string) :
  interfaceSliceToStringSlice (VString <$> l) = l.
Proof. induction l as [|x l IH]; csimpl; [done | by rewrite IH]. Qed.

Lemma stringsOf_box (l : list string) :
  stringsOf (stringSliceToInterfaceSlice l) = Some l.
Proof. induction l as [|x l IH]; simpl; [done | by rewrite IH]. Qed.

Lemma readField_typeOK (sch : Schema) (raw : option Value) :
  typeOK (Type_ sch) (readField sch raw) = true.
Proof.
  unfold readField.
  destruct (Type_ sch), raw as [[]|]; reflexivity.
Qed.

Lemma readField_writeField (sch : Schema) (v w : Value) :
  writeField sch v = Some w -> readField sch (Some w) = w.
Proof.
  unfold writeField, readField.
  destruct (Type_ sch), v; try discriminate.
  - by intros [= <-].
  - destruct (stringsOf l); [by intros [= <-] | discriminate].
  - by intros [= <-].
Qed.

(** The values [d.Get] returns have the type the schema declares, so the
    type assertions of the source do not panic. *)
Lemma d_Get_typed (d : ResourceData) (key : string) (sch : Schema) :
  resourceSecurityUserSchema !! key = Some sch ->
  typeOK (Type_ sch) (d_Get d key) = true.
Proof.
  intros Hk. unfold d_Get. rewrite Hk. apply readField_typeOK.
Qed.

Lemma schema_string_keys (key : string) :
  key ∈ ["userid"; "firstname"; "lastname"; "email"; "password"; "status"] ->
  exists sch, resourceSecurityUserSchema !! key = Some sch
              /\ Type_ sch = TypeString.
Proof.
  intros Hk.
  repeat (apply elem_of_cons in Hk as [-> | Hk];
          [vm_compute; eexists; split; reflexivity |]).
  by apply elem_of_nil in Hk.
Qed.

Lemma schema_roles_key :
  exists sch, resourceSecurityUserSchema !! "roles" = Some sch
              /\ Type_ sch = TypeSet /\ Default sch = None.
Proof. vm_compute; eexists; repeat split; reflexivity. Qed.

Lemma d_Get_TypeString (d : ResourceData) (key : string) :
  key ∈ ["userid"; "firstname"; "lastname"; "email"; "password"; "status"] ->
  d_Get d key = VString (as_string (d_Get d key)).
Proof.
  intros Hk. destruct (schema_string_keys key Hk) as (sch & Hs & Ht).
  pose proof (d_Get_typed d key sch Hs) as Hty.
  rewrite Ht in Hty. by destruct (d_Get d key).
Qed.

Lemma d_Get_TypeSet (d : ResourceData) :
  d_Get d "roles" = VSet (as_set (d_Get d "roles")).
Proof.
  destruct schema_roles_key as (sch & Hs & Ht & _).
  pose proof (d_Get_typed d "roles" sch Hs) as Hty.
  rewrite Ht in Hty. by destruct (d_Get d "roles").
Qed.

Lemma d_Set_id (key : string) (v : Value) (d : ResourceData) :
  rd_id (fst (d_Set key v d)) = rd_id d.
Proof.
  unfold d_Set.
  destruct (resourceSecurityUserSchema !! key) as [sch|]; [|done].
  by destruct (writeField sch v).
Qed.

Lemma d_Get_d_Set_ne (key key' : string) (v : Value) (d : ResourceData) :
  key <> key' -> d_Get (fst (d_Set key v d)) key' = d_Get d key'.
Proof.
  intros Hne. unfold d_Set.
  destruct (resourceSecurityUserSchema !! key) as [sch|]; [|done].
  destruct (writeField sch v); [|done].
  unfold d_Get; simpl. by rewrite lookup_insert_ne.
Qed.

Lemma d_Get_d_Set_eq (key : string) (v w : Value) (d : ResourceData)
  (sch : Schema) :
  resourceSecurityUserSchema !! key = Some sch ->
  writeField sch v = Some w ->
  d_Get (fst (d_Set key v d)) key = w.
Proof.
  intros Hk Hw. unfold d_Set. rewrite Hk, Hw.
  unfold d_Get; simpl. rewrite Hk, lookup_insert_eq.
  by apply readField_writeField with v.
Qed.

Lemma rd_set_d_Set_ne (key key' : string) (v : Value) (d : ResourceData) :
  key <> key' -> rd_set (fst (d_Set key v d)) !! key' = rd_set d !! key'.
Proof.
  intros Hne. unfold d_Set.
  destruct (resourceSecurityUserSchema !! key) as [sch|]; [|done].
  destruct (writeField sch v); [|done].
  simpl. by rewrite lookup_insert_ne.
Qed.

Lemma d_Get_d_Set_string (key s : string) (d : ResourceData) :
  key ∈ ["userid"; "firstname"; "lastname"; "email"; "password"; "status"] ->
  d_Get (fst (d_Set key (VString s) d)) key = VString s.
Proof.
  intros Hk. destruct (schema_string_keys key Hk) as (sch & Hs & Ht).
  apply d_Get_d_Set_eq with sch; [done|].
  unfold writeField. by rewrite Ht.
Qed.

Lemma d_Get_d_Set_roles (l : list string) (d : ResourceData) :
  d_Get (fst (d_Set "roles" (VList (stringSliceToInterfaceSlice l)) d)) "roles"
  = VSet (list_to_set l).
Proof.
  destruct schema_roles_key as (sch & Hs & Ht & _).
  apply d_Get_d_Set_eq with sch; [done|].
  unfold writeField. by rewrite Ht, stringsOf_box.
Qed.

Ltac string_key := repeat constructor.

(** What Read leaves in [d] for a user the server returned. *)
Lemma readBack_spec (u : User) (d : ResourceData) :
  d_Get (readBack u d) "email" = VString (EmailAddress u)
  /\ d_Get (readBack u d) "firstname" = VString (FirstName u)
  /\ d_Get (readBack u d) "lastname" = VString (LastName u)
  /\ d_Get (readBack u d) "roles" = VSet (list_to_set (Roles u))
  /\ d_Get (readBack u d) "status" = VString (Status u)
  /\ d_Get (readBack u d) "userid" = VString (UserID u)
  /\ d_Get (readBack u d) "password" = d_Get d "password"
  /\ rd_set (readBack u d) !! "password" = rd_set d !! "password"
  /\ rd_id (readBack u d) = rd_id d.
Proof.
  unfold readBack.
  repeat split;
    repeat (rewrite d_Get_d_Set_ne by done);
    repeat (rewrite rd_set_d_Set_ne by done);
    repeat rewrite d_Set_id;
    try reflexivity.
  - apply d_Get_d_Set_string; string_key.
  - apply d_Get_d_Set_string; string_key.
  - apply d_Get_d_Set_string; string_key.
  - apply d_Get_d_Set_roles.
  - apply d_Get_d_Set_string; string_key.
  - apply d_Get_d_Set_string; string_key.
Qed.

Lemma d_Set_string_eq (key x : string) (d : ResourceData) :
  key ∈ ["userid"; "firstname"; "lastname"; "email"; "password"; "status"] ->
  d_Set key (VString x) d
  = ({| rd_id := rd_id d; rd_state := rd_state d; rd_plan := rd_plan d;
        rd_set := <[key := VString x]> (rd_set d) |}, None).
Proof.
  intros Hk. destruct (schema_string_keys key Hk) as (sch & Hs & Ht).
  unfold d_Set. rewrite Hs. unfold writeField. by rewrite Ht.
Qed.

Lemma d_Set_roles_eq (l : list string) (d : ResourceData) :
  d_Set "roles" (VList (stringSliceToInterfaceSlice l)) d
  = ({| rd_id := rd_id d; rd_state := rd_state d; rd_plan := rd_plan d;
        rd_set := <["roles" := VSet (list_to_set l)]> (rd_set d) |}, None).
Proof.
  destruct schema_roles_key as (sch & Hs & Ht & _).
  unfold d_Set. rewrite Hs. unfold writeField.
  by rewrite Ht, stringsOf_box.
Qed.

(** The six [d.Set] calls of Read all succeed; they change the written
    values of [d] and nothing else. *)
Lemma readBack_eq (u : User) (d : ResourceData) :
  readBack u d
  = {| rd_id := rd_id d; rd_state := rd_state d; rd_plan := rd_plan d;
       rd_set :=
         <["userid" := VString (UserID u)]>
           (<["status" := VString (Status u)]>
              (<["roles" := VSet (list_to_set (Roles u))]>
                 (<["lastname" := VString (LastName u)]>
                    (<["firstname" := VString (FirstName u)]>
                       (<["email" := VString (EmailAddress u)]>
                          (rd_set d)))))) |}.
Proof.
  unfold readBack. cbv zeta.
  rewrite (d_Set_string_eq "email") by string_key. cbn [fst].
  rewrite (d_Set_string_eq "firstname") by string_key. cbn [fst].
  rewrite (d_Set_string_eq "lastname") by string_key. cbn [fst].
  rewrite d_Set_roles_eq. cbn [fst].
  rewrite (d_Set_string_eq "status") by string_key. cbn [fst].
  rewrite (d_Set_string_eq "userid") by string_key. cbn [fst].
  reflexivity.
Qed.

(** Read writes each of its six keys: the written value under a key is
    the one [d.Get] returns afterwards, and nothing is written under the
    password by it. *)
Lemma readBack_written (u : User) (d : ResourceData) (key : string) :
  key ∈ ["userid"; "firstname"; "lastname"; "email"; "status"; "roles"] ->
  rd_set (readBack u d) !! key = Some (d_Get (readBack u d) key).
Proof.
  intros Hk.
  destruct (readBack_spec u d) as (Re & Rf & Rl & Rr & Rs & Ru & _).
  repeat (apply elem_of_cons in Hk as [-> | Hk]);
    [ rewrite Ru | rewrite Rf | rewrite Rl | rewrite Re | rewrite Rs
    | rewrite Rr | by apply elem_of_nil in Hk ];
    rewrite readBack_eq; cbn [rd_set];
    repeat (rewrite lookup_insert_ne by done); apply lookup_insert_eq.
Qed.

(* ===================================================================== *)
(** ** The callbacks, branch by branch                                    *)
(* ===================================================================== *)

Lemma resourceSecurityUserRead_eq {S : Type} `{UserService S}
  (d : ResourceData) (s : S) :
  resourceSecurityUserRead d s =
  match User_Get (d_Id d) s with
  | ((_, Some e), s') => mkOutcome (Some e) d s' [CallGet (d_Id d)]
  | ((None, None), s') => mkOutcome None (d_SetId "" d) s' [CallGet (d_Id d)]
  | ((Some u, None), s') => mkOutcome None (readBack u d) s' [CallGet (d_Id d)]
  end.
Proof.
  unfold resourceSecurityUserRead, bind, Id, client_Get.
  destruct (User_Get (d_Id d) s) as [[[u|] [e|]] s']; reflexivity.
Qed.

Lemma resourceSecurityUserRead_calls {S : Type} `{UserService S}
  (d : ResourceData) (s : S) :
  calls (resourceSecurityUserRead d s) = [CallGet (d_Id d)].
Proof.
  rewrite resourceSecurityUserRead_eq.
  destruct (User_Get (d_Id d) s) as [[[u|] [e|]] s']; reflexivity.
Qed.

Lemma resourceSecurityUserCreate_eq {S : Type} `{UserService S}
  (d : ResourceData) (s : S) :
  resourceSecurityUserCreate d s =
  let user := getSecurityUserFromResourceData d in
  match User_Create user s with
  | (Some e, s') => mkOutcome (Some e) d s' [CallCreate user]
  | (None, s') =>
      let o := resourceSecurityUserRead (d_SetId (UserID user) d) s' in
      mkOutcome (result o) (data o) (server o) (CallCreate user :: calls o)
  end.
Proof.
  unfold resourceSecurityUserCreate, bind, client_Create.
  cbv zeta.
  destruct (User_Create _ s) as [[e|] s']; [reflexivity|].
  cbn [fst snd ret SetId].
  destruct (resourceSecurityUserRead _ s'); reflexivity.
Qed.

Lemma resourceSecurityUserDelete_eq {S : Type} `{UserService S}
  (d : ResourceData) (s : S) :
  resourceSecurityUserDelete d s =
  match User_Delete (d_Id d) s with
  | (Some e, s') => mkOutcome (Some e) d s' [CallDelete (d_Id d)]
  | (None, s') => mkOutcome None (d_SetId "" d) s' [CallDelete (d_Id d)]
  end.
Proof.
  unfold resourceSecurityUserDelete, bind, Id, client_Delete.
  destruct (User_Delete (d_Id d) s) as [[e|] s']; reflexivity.
Qed.

(* ===================================================================== *)
(** ** Read                                                               *)
(* ===================================================================== *)

(** C3. When the client reports no such user (a nil user and a nil error),
    Read clears the id of the resource and returns nil; it writes no field
    and issues the one Get call. *)
Theorem read_not_found_clears_id {S : Type} `{UserService S}
  (d : ResourceData) (s s' : S) :
  User_Get (d_Id d) s = ((None, None), s') ->
  let o := resourceSecurityUserRead d s in
  result o = None
  /\ d_Id (data o) = ""
  /\ (forall key, d_Get (data o) key = d_Get d key)
  /\ server o = s'
  /\ calls o = [CallGet (d_Id d)].
Proof.
  intros Hget o. subst o. rewrite resourceSecurityUserRead_eq, Hget.
  simpl. repeat split; reflexivity.
Qed.

(** C5. When the client returns a user, Read copies its email, first name,
    last name, roles (as a set), status and userid into [d], returns nil,
    and leaves the password of [d] as it was: no value is written under
    that key.  The id is left alone too. *)
Theorem read_existing_copies_fields {S : Type} `{UserService S}
  (d : ResourceData) (s s' : S) (user : User) :
  User_Get (d_Id d) s = ((Some user, None), s') ->
  let o := resourceSecurityUserRead d s in
  result o = None
  /\ d_Get (data o) "email" = VString (EmailAddress user)
  /\ d_Get (data o) "firstname" = VString (FirstName user)
  /\ d_Get (data o) "lastname" = VString (LastName user)
  /\ d_Get (data o) "roles" = VSet (list_to_set (Roles user))
  /\ d_Get (data o) "status" = VString (Status user)
  /\ d_Get (data o) "userid" = VString (UserID user)
  /\ d_Get (data o) "password" = d_Get d "password"
  /\ rd_set (data o) !! "password" = rd_set d !! "password"
  /\ d_Id (data o) = d_Id d.
Proof.
  intros Hget o. subst o. rewrite resourceSecurityUserRead_eq, Hget.
  simpl. split; [reflexivity|]. apply readBack_spec.
Qed.

(* ===================================================================== *)
(** ** Create and Delete                                                  *)
(* ===================================================================== *)

(** C4. When the client's create operation returns an error, Create
    returns that very error and leaves [d] untouched, its id included; the
    create call is the only call issued. *)
Theorem create_error_sets_no_id {S : Type} `{UserService S}
  (d : ResourceData) (s s' : S) (e : error) :
  User_Create (getSecurityUserFromResourceData d) s = (Some e, s') ->
  let o := resourceSecurityUserCreate d s in
  result o = Some e
  /\ data o = d
  /\ d_Id (data o) = d_Id d
  /\ calls o = [CallCreate (getSecurityUserFromResourceData d)].
Proof.
  intros Hc o. subst o. rewrite resourceSecurityUserCreate_eq.
  cbv zeta. rewrite Hc. repeat split; reflexivity.
Qed.

(** C8. Delete calls the client with the id of [d].  When the client
    succeeds the id is cleared and nil is returned; when the client fails
    its error is returned as it is and [d], its id included, is what it
    was before the call. *)
Theorem delete_clears_id_or_surfaces_error {S : Type} `{UserService S}
  (d : ResourceData) (s : S) :
  let o := resourceSecurityUserDelete d s in
  calls o = [CallDelete (d_Id d)]
  /\ server o = snd (User_Delete (d_Id d) s)
  /\ match fst (User_Delete (d_Id d) s) with
     | None => result o = None /\ d_Id (data o) = ""
     | Some e => result o = Some e /\ data o = d /\ d_Id (data o) = d_Id d
     end.
Proof.
  intros o. subst o. rewrite resourceSecurityUserDelete_eq.
  destruct (User_Delete (d_Id d) s) as [[e|] s']; simpl;
    repeat split; reflexivity.
Qed.

(* ===================================================================== *)
(** ** Update                                                             *)
(* ===================================================================== *)

Lemma resourceSecurityUserUpdate_eq {S : Type} `{UserService S}
  (d : ResourceData) (s : S) :
  resourceSecurityUserUpdate d s =
  let id := d_Id d in
  let password := as_string (d_Get d "password") in
  let user := getSecurityUserFromResourceData d in
  let p := if d_HasChange d "password"
           then (User_ChangePassword id password s,
                 [CallChangePassword id password])
           else ((None, s), []) in
  match p with
  | ((Some e, s1), c1) => mkOutcome (Some e) d s1 c1
  | ((None, s1), c1) =>
      let g := if profileChanged d
               then (User_Update id user s1, [CallUpdate id user])
               else ((None, s1), []) in
      match g with
      | ((Some e, s2), c2) => mkOutcome (Some e) d s2 (c1 ++ c2)
      | ((None, s2), c2) =>
          let o := resourceSecurityUserRead d s2 in
          mkOutcome (result o) (data o) (server o) (c1 ++ c2 ++ calls o)
      end
  end.
Proof.
  unfold resourceSecurityUserUpdate, bind, HasChange, Get, Id,
    client_ChangePassword, client_Update, ret, profileChanged.
  cbv zeta.
  destruct (d_HasChange d "password").
  - destruct (User_ChangePassword _ _ s) as [[e|] s1]; cbn [fst snd];
      [reflexivity|].
    destruct (d_HasChange d "firstname" || d_HasChange d "lastname"
              || d_HasChange d "email" || d_HasChange d "status"
              || d_HasChange d "roles").
    + destruct (User_Update _ _ s1) as [[e|] s2]; cbn [fst snd];
        [reflexivity|].
      destruct (resourceSecurityUserRead d s2); reflexivity.
    + destruct (resourceSecurityUserRead d s1); reflexivity.
  - destruct (d_HasChange d "firstname" || d_HasChange d "lastname"
              || d_HasChange d "email" || d_HasChange d "status"
              || d_HasChange d "roles").
    + destruct (User_Update _ _ s) as [[e|] s2]; cbn [fst snd];
        [reflexivity|].
      destruct (resourceSecurityUserRead d s2); reflexivity.
    + destruct (resourceSecurityUserRead d s); reflexivity.
Qed.

Lemma filter_isCallGet_read {S : Type} `{UserService S}
  (sel : Call -> bool) (d : ResourceData) (s : S) :
  (forall id, sel (CallGet id) = false) ->
  List.filter sel (calls (resourceSecurityUserRead d s)) = [].
Proof.
  intros Hsel. rewrite resourceSecurityUserRead_calls. simpl.
  by rewrite Hsel.
Qed.

(** The general update calls among the calls of an Update. *)
Lemma update_calls_filter {S : Type} `{UserService S}
  (d : ResourceData) (s : S) :
  List.filter isCallUpdate (calls (resourceSecurityUserUpdate d s))
  = (if profileChanged d
        && negb (d_HasChange d "password"
                 && bool_decide
                      (fst (User_ChangePassword (d_Id d)
                              (as_string (d_Get d "password")) s) <> None))
     then [CallUpdate (d_Id d) (getSecurityUserFromResourceData d)]
     else []).
Proof.
  rewrite resourceSecurityUserUpdate_eq. cbv zeta.
  destruct (d_HasChange d "password"), (profileChanged d);
    repeat match goal with
    | |- context [User_ChangePassword ?i ?p s] =>
        destruct (User_ChangePassword i p s) as [[?|] ?]
    | |- context [User_Update ?i ?u ?x] =>
        destruct (User_Update i u x) as [[?|] ?]
    end;
    cbn [fst snd andb negb calls app List.filter isCallUpdate];
    repeat rewrite List.filter_app;
    repeat (rewrite filter_isCallGet_read by reflexivity);
    cbn [fst snd andb negb calls app List.filter isCallUpdate];
    try reflexivity.
Qed.

(** C2, as the code has it.  In every Update: the change-password call is
    issued exactly when the password differs from the prior state; the
    general update call is issued exactly when one of firstname, lastname,
    email, status, roles differs and the change-password call, if there
    was one, returned no error; when both conditions hold and the
    change-password call returned no error, the two calls are issued in the
    same invocation, the change-password call first. *)
Theorem update_calls_by_change {S : Type} `{UserService S}
  (d : ResourceData) (s : S) :
  let o := resourceSecurityUserUpdate d s in
  let id := d_Id d in
  let password := as_string (d_Get d "password") in
  let user := getSecurityUserFromResourceData d in
  let passwordFailed :=
    d_HasChange d "password"
    && bool_decide (fst (User_ChangePassword id password s) <> None) in
  List.filter isCallChangePassword (calls o)
  = (if d_HasChange d "password" then [CallChangePassword id password] else [])
  /\ List.filter isCallUpdate (calls o)
     = (if profileChanged d && negb passwordFailed
        then [CallUpdate id user] else [])
  /\ (d_HasChange d "password" && profileChanged d && negb passwordFailed
      = true ->
      exists rest,
        calls o = CallChangePassword id password :: CallUpdate id user :: rest).
Proof.
  intros o id password user passwordFailed.
  subst o passwordFailed. rewrite resourceSecurityUserUpdate_eq. cbv zeta.
  fold id password user.
  destruct (d_HasChange d "password"), (profileChanged d);
    repeat match goal with
    | |- context [User_ChangePassword id password s] =>
        destruct (User_ChangePassword id password s) as [[?|] ?]
    | |- context [User_Update id user ?x] =>
        destruct (User_Update id user x) as [[?|] ?]
    end;
    cbn [fst snd andb negb calls app List.filter isCallChangePassword
         isCallUpdate bool_decide decide_rel];
    repeat rewrite List.filter_app;
    repeat (rewrite filter_isCallGet_read by reflexivity);
    cbn [fst snd andb negb calls app List.filter isCallChangePassword
         isCallUpdate];
    repeat split; try reflexivity; try discriminate; intros _; eauto.
Qed.

(** C6. In every Update: when the change-password call returns an error,
    Update returns that error and the change-password call is the only
    call issued, so there is no general update call and no Read; when the
    general update call returns an error, Update returns that error and
    issues no Get, so there is no Read.  In both cases [d] is untouched. *)
Theorem update_error_aborts {S : Type} `{UserService S}
  (d : ResourceData) (s : S) :
  let o := resourceSecurityUserUpdate d s in
  let id := d_Id d in
  let password := as_string (d_Get d "password") in
  let user := getSecurityUserFromResourceData d in
  (forall e s1,
      d_HasChange d "password" = true ->
      User_ChangePassword id password s = (Some e, s1) ->
      result o = Some e
      /\ calls o = [CallChangePassword id password]
      /\ data o = d)
  /\ (forall e s1 s2,
         (d_HasChange d "password" = false /\ s1 = s
          \/ d_HasChange d "password" = true
             /\ User_ChangePassword id password s = (None, s1)) ->
         profileChanged d = true ->
         User_Update id user s1 = (Some e, s2) ->
         result o = Some e
         /\ calls o = ((if d_HasChange d "password"
                        then [CallChangePassword id password] else [])
                       ++ [CallUpdate id user])%list
         /\ List.filter isCallGet (calls o) = []
         /\ data o = d).
Proof.
  intros o id password user. subst o.
  rewrite resourceSecurityUserUpdate_eq. cbv zeta. fold id password user.
  split.
  - intros e s1 Hpw Hcp. rewrite Hpw, Hcp. repeat split; reflexivity.
  - intros e s1 s2 [[Hpw ->] | [Hpw Hcp]] Hprof Hup.
    + rewrite Hpw, Hprof, Hup. repeat split; reflexivity.
    + rewrite Hpw, Hcp, Hprof, Hup. repeat split; reflexivity.
Qed.

(** C10. Every general update call Update issues is keyed by the id of [d]
    and carries the user built by [getSecurityUserFromResourceData] from
    the whole of [d], so with the password [d.Get] returns; this is so
    when the password did not change and only another field, such as the
    email, differs: in that case the call is issued. *)
Theorem update_sends_full_record {S : Type} `{UserService S}
  (d : ResourceData) (s : S) :
  let o := resourceSecurityUserUpdate d s in
  (forall id user,
      In (CallUpdate id user) (calls o) ->
      id = d_Id d
      /\ user = getSecurityUserFromResourceData d
      /\ Password user = as_string (d_Get d "password")
      /\ UserID user = as_string (d_Get d "userid")
      /\ FirstName user = as_string (d_Get d "firstname")
      /\ LastName user = as_string (d_Get d "lastname")
      /\ EmailAddress user = as_string (d_Get d "email")
      /\ Status user = as_string (d_Get d "status")
      /\ Roles user = interfaceSliceToStringSlice
                        (Set_List (as_set (d_Get d "roles"))))
  /\ (d_HasChange d "password" = false ->
      d_HasChange d "email" = true ->
      In (CallUpdate (d_Id d) (getSecurityUserFromResourceData d)) (calls o)
      /\ Password (getSecurityUserFromResourceData d)
         = as_string (d_Get d "password")).
Proof.
  intros o. subst o. split.
  - intros id user Hin.
    assert (CallUpdate id user
            = CallUpdate (d_Id d) (getSecurityUserFromResourceData d)) as Heq.
    { pose proof (update_calls_filter d s) as Hf.
      assert (In (CallUpdate id user)
                (List.filter isCallUpdate
                   (calls (resourceSecurityUserUpdate d s)))) as Hin'
        by (apply List.filter_In; split; [exact Hin | reflexivity]).
      rewrite Hf in Hin'.
      destruct (_ && _) in Hin'; simpl in Hin'; [|tauto].
      destruct Hin' as [<- | []]. reflexivity. }
    injection Heq as -> ->. repeat split; reflexivity.
  - intros Hpw Hemail. split; [|reflexivity].
    rewrite resourceSecurityUserUpdate_eq. cbv zeta. rewrite Hpw.
    assert (profileChanged d = true) as ->.
    { unfold profileChanged. rewrite Hemail.
      by destruct (d_HasChange d "firstname"), (d_HasChange d "lastname"). }
    destruct (User_Update _ _ s) as [[e|] s2]; simpl; auto.
Qed.

(* ===================================================================== *)
(** ** Validation and planning                                            *)
(* ===================================================================== *)

Lemma bind_nil_inv {A B : Type} (f : A -> list B) (l : list A) (x : A) :
  l ≫= f = [] -> x ∈ l -> f x = [].
Proof.
  intros Hnil Hx. destruct (f x) as [|b bs] eqn:Hfx; [done|].
  assert (b ∈ l ≫= f) as Hb.
  { apply list_elem_of_bind. exists x. split; [|done]. rewrite Hfx. left. }
  rewrite Hnil in Hb. by apply elem_of_nil in Hb.
Qed.

(** A configuration without errors passes the check of each declared
    field. *)
Lemma schemaValidate_field (schema : gmap string Schema)
  (cfg : gmap string Value) (key : string) (sch : Schema) :
  schemaValidate schema cfg = [] ->
  schema !! key = Some sch ->
  validateField key sch (cfg !! key) = [].
Proof.
  unfold schemaValidate. intros Hnil Hk.
  apply app_eq_nil in Hnil as [Hnil _].
  apply (bind_nil_inv _ _ (key, sch)) in Hnil; [done|].
  by apply elem_of_map_to_list.
Qed.

(** A configuration without errors has declared keys only. *)
Lemma schemaValidate_known (schema : gmap string Schema)
  (cfg : gmap string Value) (key : string) (v : Value) :
  schemaValidate schema cfg = [] ->
  cfg !! key = Some v ->
  is_Some (schema !! key).
Proof.
  unfold schemaValidate. intros Hnil Hk.
  apply app_eq_nil in Hnil as [_ Hnil].
  apply (bind_nil_inv _ _ (key, v)) in Hnil;
    [|by apply elem_of_map_to_list].
  simpl in Hnil. by destruct (schema !! key).
Qed.

Lemma schemaValidate_field_error (schema : gmap string Schema)
  (cfg : gmap string Value) (key : string) (sch : Schema) :
  schema !! key = Some sch ->
  validateField key sch (cfg !! key) <> [] ->
  schemaValidate schema cfg <> [].
Proof.
  intros Hk Hne Hnil. apply Hne. by apply schemaValidate_field with schema.
Qed.

Lemma schema_status :
  resourceSecurityUserSchema !! "status"
  = Some {| Default := Some (VString "active");
            Description := "The user's status, e.g. active or disabled.";
            Type_ := TypeString;
            Optional := true;
            ValidateFunc := Some (StringInSlice ["active"; "disabled"] false);
            Elem := None; Required := false; ForceNew := false;
            Sensitive := false |}.
Proof. vm_compute. reflexivity. Qed.

(** The status check of the schema: the strings "active" and "disabled",
    and nothing else. *)
Lemma validateField_status (sch : Schema) (v : Value) :
  resourceSecurityUserSchema !! "status" = Some sch ->
  validateField "status" sch (Some v) = []
  <-> v = VString "active" \/ v = VString "disabled".
Proof.
  rewrite schema_status. intros [= <-].
  unfold validateField, StringInSlice; cbn [Type_ ValidateFunc typeOK].
  destruct v as [|x|l|x]; cbn [typeOK snd];
    try (split; [discriminate | intros [|]; discriminate]).
  cbn [existsb andb orb].
  repeat rewrite orb_false_r.
  destruct (bool_decide (x = "active")) eqn:Ha;
    destruct (bool_decide (x = "disabled")) eqn:Hd;
    cbn [orb snd];
    try apply bool_decide_eq_true in Ha;
    try apply bool_decide_eq_true in Hd;
    try apply bool_decide_eq_false in Ha;
    try apply bool_decide_eq_false in Hd;
    subst; split; try done; auto.
  intros [[= ->] | [= ->]]; done.
Qed.

Lemma planValues_lookup (schema : gmap string Schema)
  (cfg : gmap string Value) (key : string) :
  planValues schema cfg !! key
  = match schema !! key with
    | Some sch => match cfg !! key with
                  | Some v => Some v
                  | None => Default sch
                  end
    | None => None
    end.
Proof.
  unfold planValues. rewrite map_lookup_imap.
  by destruct (schema !! key).
Qed.

Lemma d_Get_newResourceData (cfg : gmap string Value) (key : string) :
  d_Get (newResourceData cfg) key
  = match resourceSecurityUserSchema !! key with
    | Some sch => readField sch (match cfg !! key with
                                 | Some v => Some v
                                 | None => Default sch
                                 end)
    | None => VNil
    end.
Proof.
  unfold d_Get, newResourceData; cbn [rd_set rd_plan].
  rewrite lookup_empty, planValues_lookup.
  by destruct (resourceSecurityUserSchema !! key).
Qed.

(** In a configuration without errors, [d.Get] returns what is written. *)
Lemma d_Get_valid_config (cfg : gmap string Value) (key : string) (v : Value) :
  schemaValidate resourceSecurityUserSchema cfg = [] ->
  cfg !! key = Some v ->
  d_Get (newResourceData cfg) key = v.
Proof.
  intros Hvalid Hk.
  destruct (schemaValidate_known _ _ _ _ Hvalid Hk) as [sch Hs].
  pose proof (schemaValidate_field _ _ _ _ Hvalid Hs) as Hf.
  rewrite d_Get_newResourceData, Hs, Hk.
  rewrite Hk in Hf. unfold validateField in Hf. clear Hvalid Hs Hk.
  unfold readField.
  destruct (Type_ sch), v; cbn [typeOK] in Hf;
    first [reflexivity | discriminate Hf].
Qed.

(** C7. A configuration whose status is anything but "active" or
    "disabled" has validation errors, and the host then returns them
    without running a callback: no client call is issued and the server is
    what it was, for a new resource and for a change of an existing one.
    The values the status check accepts are exactly those two strings.
    When the status is left out, [d.Get] returns "active", and so does the
    user built from [d]. *)
Theorem status_enum_checked_before_calls (cfg : gmap string Value) :
  (exists sch,
      resourceSecurityUserSchema !! "status" = Some sch
      /\ Default sch = Some (VString "active")
      /\ forall v, validateField "status" sch (Some v) = []
                   <-> v = VString "active" \/ v = VString "disabled")
  /\ (forall v,
         cfg !! "status" = Some v ->
         v <> VString "active" ->
         v <> VString "disabled" ->
         schemaValidate resourceSecurityUserSchema cfg <> []
         /\ forall (S : Type) (svc : UserService S) (s : S)
                   (id : string) (state : gmap string Value),
             let o1 := hostCreate resourceSecurityUser cfg s in
             let o2 := hostChange resourceSecurityUser id state cfg s in
             result o1 = schemaValidate resourceSecurityUserSchema cfg
             /\ calls o1 = [] /\ server o1 = s
             /\ result o2 = schemaValidate resourceSecurityUserSchema cfg
             /\ calls o2 = [] /\ server o2 = s)
  /\ (cfg !! "status" = None ->
      d_Get (newResourceData cfg) "status" = VString "active"
      /\ Status (getSecurityUserFromResourceData (newResourceData cfg))
         = "active").
Proof.
  split; [|split].
  - eexists. split; [apply schema_status|]. split; [reflexivity|].
    intros v. apply validateField_status, schema_status.
  - intros v Hst Hna Hnd.
    assert (schemaValidate resourceSecurityUserSchema cfg <> []) as Herr.
    { eapply schemaValidate_field_error; [apply schema_status|].
      rewrite Hst. intros Hnil.
      apply validateField_status in Hnil; [|apply schema_status].
      tauto. }
    split; [exact Herr|].
    intros S svc s id state o1 o2. subst o1 o2.
    unfold hostCreate, hostChange.
    cbn [SchemaMap resourceSecurityUser].
    destruct (schemaValidate resourceSecurityUserSchema cfg); [done|].
    repeat split; reflexivity.
  - intros Hnone.
    assert (d_Get (newResourceData cfg) "status" = VString "active") as Hg.
    { rewrite d_Get_newResourceData, schema_status, Hnone. reflexivity. }
    split; [exact Hg|].
    unfold getSecurityUserFromResourceData; cbn [Status]. by rewrite Hg.
Qed.

(* ===================================================================== *)
(** ** The login id                                                       *)
(* ===================================================================== *)

Lemma requiresNew_userid (d : ResourceData) :
  requiresNew resourceSecurityUserSchema d = d_HasChange d "userid".
Proof.
  unfold requiresNew. generalize (d_HasChange d). intros h.
  vm_compute. by destruct (h _).
Qed.

Lemma resourceSecurityUserUpdate_id {S : Type} `{UserService S}
  (d : ResourceData) (s : S) :
  let o := resourceSecurityUserUpdate d s in
  d_Id (data o) = d_Id d
  \/ d_Id (data o) = ""
     /\ exists s1, fst (User_Get (d_Id d) s1) = (None, None).
Proof.
  cbv zeta. rewrite resourceSecurityUserUpdate_eq. cbv zeta.
  destruct (if d_HasChange d "password" then _ else _) as [[[e|] s1] c1];
    [by left|].
  destruct (if profileChanged d then _ else _) as [[[e|] s2] c2];
    [by left|].
  rewrite resourceSecurityUserRead_eq.
  destruct (User_Get (d_Id d) s2) as [[[u|] [e|]] s3] eqn:Hget;
    cbn [data]; try by left.
  - left. apply readBack_spec.
  - right. split; [reflexivity|]. exists s2. by rewrite Hget.
Qed.

Lemma resourceSecurityUserUpdate_keys {S : Type} `{UserService S}
  (d : ResourceData) (s : S) :
  Forall (fun c => callKey c = d_Id d)
         (calls (resourceSecurityUserUpdate d s)).
Proof.
  rewrite resourceSecurityUserUpdate_eq. cbv zeta.
  assert (forall s2, Forall (fun c => callKey c = d_Id d)
                       (calls (resourceSecurityUserRead d s2))) as Hread.
  { intros s2. rewrite resourceSecurityUserRead_calls.
    by repeat constructor. }
  destruct (d_HasChange d "password"), (profileChanged d);
    repeat match goal with
    | |- context [User_ChangePassword ?i ?p s] =>
        destruct (User_ChangePassword i p s) as [[?|] ?]
    | |- context [User_Update ?i ?u ?x] =>
        destruct (User_Update i u x) as [[?|] ?]
    end;
    cbn [calls app]; repeat (apply Forall_cons; split; [reflexivity|]);
    first [apply Forall_nil_2 | apply Hread].
Qed.

Lemma resourceSecurityUserCreate_no_update {S : Type} `{UserService S}
  (sel : Call -> bool) (d : ResourceData) (s : S) :
  (forall user, sel (CallCreate user) = false) ->
  (forall id, sel (CallGet id) = false) ->
  List.filter sel (calls (resourceSecurityUserCreate d s)) = [].
Proof.
  intros Hc Hg. rewrite resourceSecurityUserCreate_eq. cbv zeta.
  destruct (User_Create _ s) as [[e|] s1]; cbn [calls List.filter];
    rewrite Hc; [reflexivity|].
  by apply filter_isCallGet_read.
Qed.

(** C9. The schema marks userid, and no other attribute, as forcing a new
    resource, so a plan in which the userid changes requires a new
    resource; the host then deletes the resource under its id and creates
    a new one, and issues no general update and no change-password call.
    Update itself never gives the resource another id: after it the id is
    what it was, or it is cleared because the client reported no such
    user; every call Update issues addresses the id of [d]; and when the
    userid has not changed, the record of the general update call has the
    userid of the prior state. *)
Theorem userid_forces_replacement :
  ForceNew <$> resourceSecurityUserSchema !! "userid" = Some true
  /\ (forall d,
         requiresNew resourceSecurityUserSchema d = d_HasChange d "userid")
  /\ (forall (S : Type) (svc : UserService S) (s : S) (id : string)
             (state cfg : gmap string Value),
         schemaValidate resourceSecurityUserSchema cfg = [] ->
         d_HasChange (changeResourceData id state cfg) "userid" = true ->
         exists rest,
           calls (hostChange resourceSecurityUser id state cfg s)
           = CallDelete id :: rest
           /\ List.filter isCallUpdate rest = []
           /\ List.filter isCallChangePassword rest = [])
  /\ (forall (S : Type) (svc : UserService S) (d : ResourceData) (s : S),
         let o := resourceSecurityUserUpdate d s in
         (d_Id (data o) = d_Id d
          \/ d_Id (data o) = ""
             /\ exists s1, fst (User_Get (d_Id d) s1) = (None, None))
         /\ Forall (fun c => callKey c = d_Id d) (calls o))
  /\ (forall d,
         rd_set d !! "userid" = None ->
         d_HasChange d "userid" = false ->
         UserID (getSecurityUserFromResourceData d)
         = as_string (fst (d_GetChange d "userid"))).
Proof.
  split; [by vm_compute|]. split; [apply requiresNew_userid|].
  split; [|split].
  - intros S svc s id state cfg Hvalid Hch.
    unfold hostChange. cbn [SchemaMap resourceSecurityUser Delete Create].
    rewrite Hvalid, requiresNew_userid, Hch. clear Hvalid Hch.
    rewrite resourceSecurityUserDelete_eq. cbn [d_Id changeResourceData rd_id].
    destruct (User_Delete id s) as [[e|] s1]; cbn [result calls server app].
    + by exists [].
    + eexists. split; [reflexivity|].
      split; by apply resourceSecurityUserCreate_no_update.
  - intros S svc d s o. subst o. split.
    + apply resourceSecurityUserUpdate_id.
    + apply resourceSecurityUserUpdate_keys.
  - intros d Hset. unfold d_HasChange, d_GetChange, getSecurityUserFromResourceData.
    cbn [UserID]. unfold d_Get. rewrite Hset.
    destruct (resourceSecurityUserSchema !! "userid") as [sch|]; [|done].
    cbn [fst]. intros Hb. apply negb_false_iff, bool_decide_eq_true in Hb.
    by rewrite Hb.
Qed.

(* ===================================================================== *)
(** ** Create, then Read                                                  *)
(* ===================================================================== *)

Lemma sameProfile_withPassword (password : string) (u : User) :
  sameProfile u (withPassword password u).
Proof. repeat split. Qed.

(** The roles of the user built from [d], as a set, are the roles of [d]. *)
Lemma getSecurityUser_roles (d : ResourceData) :
  VSet (list_to_set (Roles (getSecurityUserFromResourceData d)))
  = d_Get d "roles".
Proof.
  unfold getSecurityUserFromResourceData, Set_List; cbn [Roles].
  rewrite interfaceSliceToStringSlice_box, list_to_set_elements_L.
  symmetry. apply d_Get_TypeSet.
Qed.

(** Reading back a user with the profile of the one built from [d0] gives
    [d0]'s own values, under every key but the password. *)
Lemma readBack_sameProfile (d0 d : ResourceData) (u : User) (key : string) :
  sameProfile (getSecurityUserFromResourceData d0) u ->
  key ∈ ["userid"; "firstname"; "lastname"; "email"; "status"; "roles"] ->
  d_Get (readBack u d) key = d_Get d0 key.
Proof.
  intros (Hid & Hfn & Hln & Hem & Hst & Hro) Hk.
  destruct (readBack_spec u d)
    as (Re & Rf & Rl & Rr & Rs & Ru & _).
  repeat (apply elem_of_cons in Hk as [-> | Hk]);
    [ rewrite Ru, Hid | rewrite Rf, Hfn | rewrite Rl, Hln | rewrite Re, Hem
    | rewrite Rs, Hst | rewrite Rr, Hro | by apply elem_of_nil in Hk ];
    try (unfold getSecurityUserFromResourceData;
         cbn [UserID FirstName LastName EmailAddress Status];
         symmetry; apply d_Get_TypeString; string_key).
  apply getSecurityUser_roles.
Qed.

Lemma nonpassword_keys (cfg : gmap string Value) (key : string) (v : Value) :
  schemaValidate resourceSecurityUserSchema cfg = [] ->
  cfg !! key = Some v ->
  key <> "password" ->
  key ∈ ["userid"; "firstname"; "lastname"; "email"; "status"; "roles"].
Proof.
  intros Hvalid Hk Hne.
  destruct (schemaValidate_known _ _ _ _ Hvalid Hk) as [sch Hs].
  clear Hvalid Hk.
  unfold resourceSecurityUserSchema in Hs.
  apply elem_of_list_to_map_2 in Hs.
  repeat (apply elem_of_cons in Hs as [[= -> _] | Hs];
          [first [done | string_key] |]).
  by apply elem_of_nil in Hs.
Qed.

Lemma d_Get_default_config (cfg : gmap string Value) :
  (cfg !! "status" = None ->
   d_Get (newResourceData cfg) "status" = VString "active")
  /\ (cfg !! "roles" = None ->
      d_Get (newResourceData cfg) "roles" = VSet ∅).
Proof.
  split; intros Hnone; rewrite d_Get_newResourceData.
  - rewrite schema_status, Hnone. reflexivity.
  - destruct schema_roles_key as (sch & -> & Ht & Hd). rewrite Hnone.
    unfold readField. by rewrite Ht, Hd.
Qed.

(** Create, then Read, against any client whose create call succeeds and
    whose Get then returns a user with the profile of the submitted one. *)
Lemma create_read_any_client {S : Type} `{UserService S}
  (cfg : gmap string Value) (s s1 s2 s3 : S) (u1 u2 : User) :
  let d0 := newResourceData cfg in
  let user := getSecurityUserFromResourceData d0 in
  let o1 := resourceSecurityUserCreate d0 s in
  let o2 := resourceSecurityUserRead (data o1) (server o1) in
  schemaValidate resourceSecurityUserSchema cfg = [] ->
  User_Create user s = (None, s1) ->
  User_Get (UserID user) s1 = ((Some u1, None), s2) ->
  sameProfile user u1 ->
  User_Get (UserID user) s2 = ((Some u2, None), s3) ->
  sameProfile user u2 ->
  result o1 = None /\ result o2 = None
  /\ d_Id (data o1) = UserID user /\ d_Id (data o2) = UserID user
  /\ (forall key,
         key ∈ ["userid"; "firstname"; "lastname"; "email"; "status"; "roles"] ->
         d_Get (data o1) key = d_Get d0 key
         /\ d_Get (data o2) key = d_Get d0 key)
  /\ (forall key v,
         key <> "password" -> cfg !! key = Some v ->
         d_Get (data o1) key = v /\ d_Get (data o2) key = v)
  /\ (cfg !! "status" = None ->
      d_Get (data o2) "status" = VString "active")
  /\ (cfg !! "roles" = None -> d_Get (data o2) "roles" = VSet ∅)
  /\ calls o1 = [CallCreate user; CallGet (UserID user)]
  /\ calls o2 = [CallGet (UserID user)]
  /\ server o1 = s2 /\ server o2 = s3
  /\ (forall key,
         key ∈ ["userid"; "firstname"; "lastname"; "email"; "status"; "roles"] ->
         rd_set (data o1) !! key = Some (d_Get d0 key)
         /\ rd_set (data o2) !! key = Some (d_Get d0 key))
  /\ rd_set (data o2) !! "password" = None.
Proof.
  intros d0 user o1 o2 Hvalid Hcreate Hget1 Hsame1 Hget2 Hsame2.
  assert (o1 = mkOutcome None (readBack u1 (d_SetId (UserID user) d0)) s2
                 [CallCreate user; CallGet (UserID user)]) as Ho1.
  { subst o1. rewrite resourceSecurityUserCreate_eq. cbv zeta.
    fold user. rewrite Hcreate, resourceSecurityUserRead_eq.
    cbn [d_Id d_SetId rd_id]. by rewrite Hget1. }
  assert (d_Id (data o1) = UserID user) as Hid1.
  { rewrite Ho1. cbn [data]. unfold d_Id.
    destruct (readBack_spec u1 (d_SetId (UserID user) d0))
      as (_ & _ & _ & _ & _ & _ & _ & _ & ->).
    reflexivity. }
  assert (o2 = mkOutcome None (readBack u2 (data o1)) s3
                 [CallGet (UserID user)]) as Ho2.
  { subst o2. rewrite resourceSecurityUserRead_eq, Hid1.
    rewrite Ho1 at 1. cbn [server]. by rewrite Hget2. }
  assert (forall key,
             key ∈ ["userid"; "firstname"; "lastname"; "email"; "status";
                    "roles"] ->
             d_Get (data o1) key = d_Get d0 key
             /\ d_Get (data o2) key = d_Get d0 key) as Hkeys.
  { intros key Hk. rewrite Ho2. cbn [data]. rewrite Ho1. cbn [data].
    split; by apply readBack_sameProfile. }
  split; [by rewrite Ho1|]. split; [by rewrite Ho2|].
  split; [exact Hid1|].
  split.
  { rewrite Ho2. cbn [data]. unfold d_Id.
    destruct (readBack_spec u2 (data o1))
      as (_ & _ & _ & _ & _ & _ & _ & _ & ->).
    exact Hid1. }
  split; [exact Hkeys|].
  split; [|split].
  - intros key v Hne Hk.
    pose proof (nonpassword_keys cfg key v Hvalid Hk Hne) as Hin.
    destruct (Hkeys key Hin) as [-> ->].
    split; by apply d_Get_valid_config.
  - intros Hnone. destruct (Hkeys "status") as [_ ->]; [string_key|].
    by apply d_Get_default_config.
  - split.
    { intros Hnone. destruct (Hkeys "roles") as [_ ->]; [string_key|].
      by apply d_Get_default_config. }
    split; [by rewrite Ho1|]. split; [by rewrite Ho2|].
    split; [by rewrite Ho1|]. split; [by rewrite Ho2|].
    split.
    { intros key Hk. destruct (Hkeys key Hk) as [Hk1 Hk2]. split.
      - rewrite <- Hk1. rewrite Ho1. cbn [data]. by apply readBack_written.
      - rewrite <- Hk2. rewrite Ho2. cbn [data]. by apply readBack_written. }
    rewrite Ho2. cbn [data]. rewrite Ho1. cbn [data].
    destruct (readBack_spec u2 (readBack u1 (d_SetId (UserID user) d0)))
      as (_ & _ & _ & _ & _ & _ & _ & -> & _).
    destruct (readBack_spec u1 (d_SetId (UserID user) d0))
      as (_ & _ & _ & _ & _ & _ & _ & -> & _).
    reflexivity.
Qed.

(** The in-memory service is such a client, for every configuration and
    every server state without faults. *)
Lemma memClient_stores (user : User) (s : MemServer) :
  (forall c, fault s c = None) ->
  let s1 := setUsers (<[UserID user := user]> (users s)) s in
  User_Create user s = (None, s1)
  /\ User_Get (UserID user) s1 = ((Some (withPassword "" user), None), s1)
  /\ sameProfile user (withPassword "" user).
Proof.
  intros Hf s1. subst s1. cbn [User_Create User_Get memClient].
  rewrite !Hf. cbn [fault setUsers users]. rewrite Hf, lookup_insert_eq.
  repeat split.
Qed.

(** C1. For every configuration without validation errors, against the
    in-memory client, which stores the user Create submits (and has no
    fault planted): Create returns nil and so does a Read after it; the
    server then holds the submitted user, and the Read issues one Get for
    the userid, to which the client answers with that user less its
    password.  What the Read writes into [d] from that answer is the
    configuration: under userid, firstname, lastname, email, status and
    roles the written value is the configured one, the default "active"
    for a status left out and the empty set for roles left out, and
    [d.Get] returns it; under the password nothing is written.  The id is
    the userid of the configuration. *)
Theorem create_then_read_roundtrip (cfg : gmap string Value) (s : MemServer) :
  schemaValidate resourceSecurityUserSchema cfg = [] ->
  (forall c, fault s c = None) ->
  let d0 := newResourceData cfg in
  let o1 := resourceSecurityUserCreate d0 s in
  let o2 := resourceSecurityUserRead (data o1) (server o1) in
  result o1 = None /\ result o2 = None
  /\ d_Id (data o2) = as_string (d_Get d0 "userid")
  /\ (forall key,
         key ∈ ["userid"; "firstname"; "lastname"; "email"; "status"; "roles"] ->
         d_Get (data o2) key = d_Get d0 key)
  /\ (forall key v,
         key <> "password" -> cfg !! key = Some v ->
         d_Get (data o2) key = v)
  /\ (cfg !! "status" = None ->
      d_Get (data o2) "status" = VString "active")
  /\ (cfg !! "roles" = None -> d_Get (data o2) "roles" = VSet ∅)
  /\ users (server o1) !! as_string (d_Get d0 "userid")
     = Some (getSecurityUserFromResourceData d0)
  /\ calls o2 = [CallGet (as_string (d_Get d0 "userid"))]
  /\ fst (User_Get (as_string (d_Get d0 "userid")) (server o1))
     = (Some (withPassword "" (getSecurityUserFromResourceData d0)), None)
  /\ (forall key v,
         key <> "password" -> cfg !! key = Some v ->
         rd_set (data o1) !! key = Some v /\ rd_set (data o2) !! key = Some v)
  /\ (cfg !! "status" = None ->
      rd_set (data o2) !! "status" = Some (VString "active"))
  /\ (cfg !! "roles" = None -> rd_set (data o2) !! "roles" = Some (VSet ∅))
  /\ rd_set (data o2) !! "password" = None.
Proof.
  intros Hvalid Hf. cbv zeta.
  destruct (memClient_stores
              (getSecurityUserFromResourceData (newResourceData cfg)) s Hf)
    as (Hcreate & Hget & Hsame).
  destruct (create_read_any_client cfg s _ _ _ _ _
              Hvalid Hcreate Hget Hsame Hget Hsame)
    as (R1 & R2 & _ & Hid & Hkeys & Hcfg & Hst & Hro & _ & Hc2 & Hs1 & _
        & Hset & Hpw).
  split; [exact R1|]. split; [exact R2|]. split; [exact Hid|].
  split; [intros key Hk; by apply Hkeys|].
  split; [intros key v Hne Hk; by apply (Hcfg key v)|].
  split; [exact Hst|]. split; [exact Hro|].
  split.
  { rewrite Hs1. cbn [users setUsers]. apply lookup_insert_eq. }
  split; [exact Hc2|].
  split.
  { rewrite Hs1.
    change (as_string (d_Get (newResourceData cfg) "userid"))
      with (UserID (getSecurityUserFromResourceData (newResourceData cfg))).
    by rewrite Hget. }
  split.
  { intros key v Hne Hk.
    pose proof (nonpassword_keys cfg key v Hvalid Hk Hne) as Hin.
    destruct (Hset key Hin) as [-> ->].
    rewrite (d_Get_valid_config cfg key v Hvalid Hk). by split. }
  split.
  { intros Hnone. destruct (Hset "status") as [_ ->]; [string_key|].
    f_equal. by apply d_Get_default_config. }
  split; [|exact Hpw].
  intros Hnone. destruct (Hset "roles") as [_ ->]; [string_key|].
  f_equal. by apply d_Get_default_config.
Qed.

(* ===================================================================== *)
(** ** The theorems at the header's example                               *)
(* ===================================================================== *)

Lemma create_then_read_roundtrip_witness :
  schemaValidate resourceSecurityUserSchema adminConfig = []
  /\ (forall c, fault emptyServer c = None)
  /\ let o1 := resourceSecurityUserCreate (newResourceData adminConfig)
                 emptyServer in
     let o2 := resourceSecurityUserRead (data o1) (server o1) in
     d_Id (data o2) = "admin"
     /\ d_Get (data o2) "email" = VString "nexus@example.com"
     /\ d_Get (data o2) "roles" = VSet {[ "nx-admin" ]}
     /\ rd_set (data o2) !! "email" = Some (VString "nexus@example.com")
     /\ rd_set (data o2) !! "password" = None.
Proof.
  assert (schemaValidate resourceSecurityUserSchema adminConfig = []) as H1
    by (vm_compute; reflexivity).
  assert (forall c, fault emptyServer c = None) as H2
    by (intros c; reflexivity).
  split; [exact H1|]. split; [exact H2|].
  destruct (create_then_read_roundtrip adminConfig emptyServer H1 H2)
    as (_ & _ & Hid & _ & Hcfg & _ & _ & _ & _ & _ & Hset & _ & _ & Hpw).
  clear H1 H2.
  split; [rewrite Hid; vm_compute; reflexivity|].
  split; [apply Hcfg; [intros [=] | vm_compute; reflexivity]|].
  split; [apply Hcfg; [intros [=] | vm_compute; reflexivity]|].
  split; [|exact Hpw].
  apply (Hset "email" (VString "nexus@example.com"));
    [intros [=] | vm_compute; reflexivity].
Defined.

Lemma update_calls_by_change_witness :
  exists rest,
    calls (resourceSecurityUserUpdate adminChange2 (adminServer noFault))
    = CallChangePassword "admin" "s3cret"
      :: CallUpdate "admin" (getSecurityUserFromResourceData adminChange2)
      :: rest.
Proof.
  apply (proj2 (proj2 (update_calls_by_change adminChange2
                         (adminServer noFault)))).
  vm_compute. reflexivity.
Defined.

(** C2 as the claim words it fails when the change-password call returns
    an error: the password and the email both differ from the prior state,
    the change-password call is issued and fails, and no general update
    call follows. *)
Lemma update_calls_counterexample :
  let d := adminChange2 in
  let s := adminServer (failOn isCallChangePassword "password policy") in
  let o := resourceSecurityUserUpdate d s in
  d_HasChange d "password" = true
  /\ d_HasChange d "email" = true
  /\ calls o = [CallChangePassword "admin" "s3cret"]
  /\ ~ (existsb isCallUpdate (calls o) = true
        <-> (d_HasChange d "firstname" || d_HasChange d "lastname"
             || d_HasChange d "email" || d_HasChange d "status"
             || d_HasChange d "roles") = true).
Proof.
  cbv zeta.
  split; [vm_compute; reflexivity|].
  split; [vm_compute; reflexivity|].
  split; [vm_compute; reflexivity|].
  intros [_ Hiff].
  assert (existsb isCallUpdate
            (calls (resourceSecurityUserUpdate adminChange2
                      (adminServer (failOn isCallChangePassword
                                      "password policy")))) = false) as Hno
    by (vm_compute; reflexivity).
  rewrite Hiff in Hno; [discriminate Hno|].
  vm_compute. reflexivity.
Qed.

Lemma read_not_found_clears_id_witness :
  User_Get (d_Id adminChange3) emptyServer = ((None, None), emptyServer)
  /\ d_Id (data (resourceSecurityUserRead adminChange3 emptyServer)) = "".
Proof.
  assert (User_Get (d_Id adminChange3) emptyServer
          = ((None, None), emptyServer)) as H1 by reflexivity.
  split; [exact H1|].
  exact (proj1 (proj2 (read_not_found_clears_id adminChange3 emptyServer
                         emptyServer H1))).
Defined.

Lemma read_existing_copies_fields_witness :
  User_Get (d_Id adminChange3) (adminServer noFault)
  = ((Some (withPassword "" adminUser), None), adminServer noFault)
  /\ d_Get (data (resourceSecurityUserRead adminChange3 (adminServer noFault)))
           "email" = VString "nexus@example.com"
  /\ d_Get (data (resourceSecurityUserRead adminChange3 (adminServer noFault)))
           "password" = VString "admin123".
Proof.
  assert (User_Get (d_Id adminChange3) (adminServer noFault)
          = ((Some (withPassword "" adminUser), None), adminServer noFault))
    as H1 by (vm_compute; reflexivity).
  split; [exact H1|].
  destruct (read_existing_copies_fields adminChange3 (adminServer noFault)
              (adminServer noFault) (withPassword "" adminUser) H1)
    as (_ & He & _ & _ & _ & _ & _ & Hp & _).
  split; [exact He|]. rewrite Hp. vm_compute. reflexivity.
Defined.

Lemma create_error_sets_no_id_witness :
  let d := newResourceData adminConfig in
  let s := serverWith [] (failOn isCallCreate "conflict") in
  User_Create (getSecurityUserFromResourceData d) s = (Some "conflict", s)
  /\ result (resourceSecurityUserCreate d s) = Some "conflict"
  /\ d_Id (data (resourceSecurityUserCreate d s)) = "".
Proof.
  cbv zeta.
  assert (User_Create
            (getSecurityUserFromResourceData (newResourceData adminConfig))
            (serverWith [] (failOn isCallCreate "conflict"))
          = (Some "conflict", serverWith [] (failOn isCallCreate "conflict")))
    as H1 by reflexivity.
  split; [exact H1|].
  destruct (create_error_sets_no_id _ _ _ _ H1) as (Hr & _ & Hid & _).
  split; [exact Hr|]. rewrite Hid. reflexivity.
Defined.

Lemma update_error_aborts_witness :
  (let s := adminServer (failOn isCallChangePassword "password policy") in
   result (resourceSecurityUserUpdate adminChange2 s) = Some "password policy"
   /\ calls (resourceSecurityUserUpdate adminChange2 s)
      = [CallChangePassword "admin" "s3cret"])
  /\ (let s := adminServer (failOn isCallUpdate "read only") in
      result (resourceSecurityUserUpdate adminChange2 s) = Some "read only"
      /\ List.filter isCallGet (calls (resourceSecurityUserUpdate adminChange2 s))
         = []).
Proof.
  split; cbv zeta.
  - destruct (proj1 (update_error_aborts adminChange2
                       (adminServer (failOn isCallChangePassword
                                       "password policy")))
                    "password policy"
                    (adminServer (failOn isCallChangePassword
                                    "password policy")))
      as (Hr & Hc & _);
      [vm_compute; reflexivity | vm_compute; reflexivity |].
    split; [exact Hr | exact Hc].
  - destruct (proj2 (update_error_aborts adminChange2
                       (adminServer (failOn isCallUpdate "read only")))
                    "read only"
                    (setUsers (<["admin" := withPassword "s3cret" adminUser]>
                                 (users (adminServer
                                           (failOn isCallUpdate "read only"))))
                              (adminServer (failOn isCallUpdate "read only")))
                    (setUsers (<["admin" := withPassword "s3cret" adminUser]>
                                 (users (adminServer
                                           (failOn isCallUpdate "read only"))))
                              (adminServer (failOn isCallUpdate "read only"))))
      as (Hr & _ & Hg & _).
    + right. split; vm_compute; reflexivity.
    + vm_compute; reflexivity.
    + vm_compute; reflexivity.
    + split; [exact Hr | exact Hg].
Defined.

Lemma status_enum_checked_before_calls_witness :
  (bogusStatusConfig !! "status" = Some (VString "locked")
   /\ schemaValidate resourceSecurityUserSchema bogusStatusConfig <> []
   /\ calls (hostCreate resourceSecurityUser bogusStatusConfig emptyServer) = [])
  /\ (noStatusConfig !! "status" = None
      /\ d_Get (newResourceData noStatusConfig) "status" = VString "active").
Proof.
  split.
  - assert (bogusStatusConfig !! "status" = Some (VString "locked")) as H1
      by (vm_compute; reflexivity).
    split; [exact H1|].
    destruct (proj1 (proj2 (status_enum_checked_before_calls bogusStatusConfig))
                    (VString "locked") H1)
      as (Herr & Hhost); [intros [=] | intros [=] |].
    split; [exact Herr|].
    exact (proj1 (proj2 (Hhost MemServer memClient emptyServer "" ∅))).
  - assert (noStatusConfig !! "status" = None) as H1
      by (vm_compute; reflexivity).
    split; [exact H1|].
    exact (proj1 (proj2 (proj2 (status_enum_checked_before_calls
                                  noStatusConfig)) H1)).
Defined.

Lemma userid_forces_replacement_witness :
  (schemaValidate resourceSecurityUserSchema renamedConfig = []
   /\ d_HasChange (changeResourceData "admin" adminConfig renamedConfig)
        "userid" = true
   /\ exists rest,
       calls (hostChange resourceSecurityUser "admin" adminConfig
                renamedConfig (adminServer noFault))
       = CallDelete "admin" :: rest
       /\ List.filter isCallUpdate rest = []
       /\ List.filter isCallChangePassword rest = [])
  /\ (rd_set adminChange3 !! "userid" = None
      /\ d_HasChange adminChange3 "userid" = false
      /\ UserID (getSecurityUserFromResourceData adminChange3)
         = as_string (fst (d_GetChange adminChange3 "userid"))).
Proof.
  destruct userid_forces_replacement as (_ & _ & Hhost & _ & Hsame).
  split.
  - assert (schemaValidate resourceSecurityUserSchema renamedConfig = [])
      as H1 by (vm_compute; reflexivity).
    assert (d_HasChange (changeResourceData "admin" adminConfig renamedConfig)
              "userid" = true) as H2 by (vm_compute; reflexivity).
    split; [exact H1|]. split; [exact H2|].
    exact (Hhost MemServer memClient (adminServer noFault) "admin"
                 adminConfig renamedConfig H1 H2).
  - assert (rd_set adminChange3 !! "userid" = None) as H1 by reflexivity.
    assert (d_HasChange adminChange3 "userid" = false) as H2
      by (vm_compute; reflexivity).
    split; [exact H1|]. split; [exact H2|].
    exact (Hsame adminChange3 H1 H2).
Defined.

Lemma update_sends_full_record_witness :
  In (CallUpdate "admin" (getSecurityUserFromResourceData adminChange3))
     (calls (resourceSecurityUserUpdate adminChange3 (adminServer noFault)))
  /\ d_HasChange adminChange3 "password" = false
  /\ d_HasChange adminChange3 "email" = true
  /\ Password (getSecurityUserFromResourceData adminChange3)
     = as_string (d_Get adminChange3 "password")
  /\ In (CallUpdate (d_Id adminChange3)
           (getSecurityUserFromResourceData adminChange3))
        (calls (resourceSecurityUserUpdate adminChange3 (adminServer noFault))).
Proof.
  destruct (update_sends_full_record adminChange3 (adminServer noFault))
    as (Hsent & Hissued).
  assert (In (CallUpdate "admin"
                (getSecurityUserFromResourceData adminChange3))
             (calls (resourceSecurityUserUpdate adminChange3
                       (adminServer noFault)))) as H1
    by (vm_compute; left; reflexivity).
  assert (d_HasChange adminChange3 "password" = false) as H2
    by (vm_compute; reflexivity).
  assert (d_HasChange adminChange3 "email" = true) as H3
    by (vm_compute; reflexivity).
  split; [exact H1|]. split; [exact H2|]. split; [exact H3|].
  destruct (Hsent _ _ H1) as (_ & _ & Hpw & _).
  destruct (Hissued H2 H3) as (Hin & _).
  split; [exact Hpw | exact Hin].
Defined.

(* ===================================================================== *)
(** ** The example of the specification, run                              *)
(* ===================================================================== *)

Example getSecurityUser_admin :
  getSecurityUserFromResourceData (newResourceData adminConfig) = adminUser.
Proof. vm_compute. reflexivity. Qed.

Example create_admin_calls :
  calls (resourceSecurityUserCreate (newResourceData adminConfig) emptyServer)
  = [CallCreate adminUser; CallGet "admin"].
Proof. vm_compute. reflexivity. Qed.

Example create_admin_valid :
  schemaValidate resourceSecurityUserSchema adminConfig = [].
Proof. vm_compute. reflexivity. Qed.

Example create_admin_exists :
  let o := resourceSecurityUserCreate (newResourceData adminConfig) emptyServer in
  result (resourceSecurityUserExists (data o) (server o)) = (true, None).
Proof. vm_compute. reflexivity. Qed.

Example update_email_only_calls :
  calls (resourceSecurityUserUpdate adminChange3 (adminServer noFault))
  = [CallUpdate "admin"
       {| UserID := "admin"; FirstName := "Administrator"; LastName := "User";
          EmailAddress := "admin@example.com"; Password := "admin123";
          Status := "active"; Roles := ["nx-admin"] |};
     CallGet "admin"].
Proof. vm_compute. reflexivity. Qed.

Example delete_admin :
  let o := resourceSecurityUserDelete adminChange3 (adminServer noFault) in
  result o = None /\ d_Id (data o) = "" /\ users (server o) = ∅.
Proof. vm_compute. repeat split. Qed.

Example status_case_sensitive :
  schemaValidate resourceSecurityUserSchema
    (<["status" := VString "Active"]> adminConfig) <> [].
Proof. vm_compute. discriminate. Qed.

(* ===================================================================== *)
(** ** Read and Exists: the remaining branches                            *)
(* ===================================================================== *)

Lemma resourceSecurityUserExists_eq {S : Type} `{UserService S}
  (d : ResourceData) (s : S) :
  resourceSecurityUserExists d s =
  let r := User_Get (d_Id d) s in
  mkOutcome (bool_decide (fst (fst r) <> None), snd (fst r)) d (snd r)
            [CallGet (d_Id d)].
Proof.
  unfold resourceSecurityUserExists, bind, Id, client_Get, ret. cbv zeta.
  destruct (User_Get (d_Id d) s) as [[u e] s']; reflexivity.
Qed.

(** X1. When the client's Get returns an error, Read returns that error
    and leaves [d] as it was, id included, also when a user came with the
    error; Get is the only call. *)
Theorem read_error_surfaced {S : Type} `{UserService S}
  (d : ResourceData) (s s' : S) (user : option User) (e : error) :
  User_Get (d_Id d) s = ((user, Some e), s') ->
  let o := resourceSecurityUserRead d s in
  result o = Some e /\ data o = d /\ server o = s'
  /\ calls o = [CallGet (d_Id d)].
Proof.
  intros Hget o. subst o. rewrite resourceSecurityUserRead_eq, Hget.
  destruct user; repeat split; reflexivity.
Qed.

(** X2. Exists asks the client once for the id of [d] and returns the
    pair of "a user came back" and the client's error, both as the client
    gave them: true with the error when a user comes with an error, false
    with the error when none does, true or false with nil otherwise.  It
    never touches [d].  It agrees with Read on the same server: where
    Exists returns an error Read returns it too; where Exists returns
    false without error, Read returns nil with the id cleared; where
    Exists returns true without error, Read returns nil with the id
    kept. *)
Theorem exists_agrees_with_read {S : Type} `{UserService S}
  (d : ResourceData) (s : S) :
  let o := resourceSecurityUserExists d s in
  let r := resourceSecurityUserRead d s in
  result o = (match fst (fst (User_Get (d_Id d) s)) with
              | Some _ => true
              | None => false
              end,
              snd (fst (User_Get (d_Id d) s)))
  /\ data o = d
  /\ calls o = [CallGet (d_Id d)]
  /\ server o = snd (User_Get (d_Id d) s)
  /\ server o = server r
  /\ match result o with
     | (_, Some e) => result r = Some e /\ data r = d
     | (false, None) => result r = None /\ d_Id (data r) = ""
     | (true, None) => result r = None /\ d_Id (data r) = d_Id d
     end.
Proof.
  intros o r. subst o r.
  rewrite resourceSecurityUserExists_eq, resourceSecurityUserRead_eq.
  cbv zeta.
  destruct (User_Get (d_Id d) s) as [[[u|] [e|]] s'];
    cbn [fst snd result data server calls];
    repeat split; try reflexivity.
  apply readBack_spec.
Qed.

(* ===================================================================== *)
(** ** Create: the path after a successful create call                    *)
(* ===================================================================== *)

(** X3. When the client's create call succeeds, Create issues that call
    and then one Get for the userid it submitted, and nothing else.  What
    it returns is decided by that Get: an error of the Get is returned
    with the id already set to the userid; a missing user gives nil with
    the id cleared; a user gives nil with the id set to the userid. *)
Theorem create_success_path {S : Type} `{UserService S}
  (d : ResourceData) (s s1 : S) :
  let user := getSecurityUserFromResourceData d in
  let o := resourceSecurityUserCreate d s in
  User_Create user s = (None, s1) ->
  calls o = [CallCreate user; CallGet (UserID user)]
  /\ server o = snd (User_Get (UserID user) s1)
  /\ match fst (User_Get (UserID user) s1) with
     | (_, Some e) => result o = Some e /\ d_Id (data o) = UserID user
     | (None, None) => result o = None /\ d_Id (data o) = ""
     | (Some _, None) => result o = None /\ d_Id (data o) = UserID user
     end.
Proof.
  intros user o Hc. subst o.
  rewrite resourceSecurityUserCreate_eq. cbv zeta. fold user. rewrite Hc.
  rewrite resourceSecurityUserRead_eq. cbn [d_Id d_SetId rd_id].
  destruct (User_Get (UserID user) s1) as [[[u|] [e|]] s2];
    cbn [fst snd result data server calls d_Id d_SetId rd_id];
    repeat split; try reflexivity.
  unfold d_Id.
  destruct (readBack_spec u (d_SetId (UserID user) d))
    as (_ & _ & _ & _ & _ & _ & _ & _ & ->).
  reflexivity.
Qed.

(* ===================================================================== *)
(** ** Update: the paths without error                                    *)
(* ===================================================================== *)

(** X4. When neither the password nor one of firstname, lastname, email,
    status, roles has changed, Update is Read: it issues no write call
    and gives Read's outcome.  Update does not look at the userid, so
    this also holds when the userid differs from the prior state: Update
    never pushes a userid change by itself. *)
Theorem update_without_change_is_read {S : Type} `{UserService S}
  (d : ResourceData) (s : S) :
  d_HasChange d "password" = false ->
  profileChanged d = false ->
  resourceSecurityUserUpdate d s = resourceSecurityUserRead d s
  /\ calls (resourceSecurityUserUpdate d s) = [CallGet (d_Id d)].
Proof.
  intros Hpw Hprof.
  assert (resourceSecurityUserUpdate d s = resourceSecurityUserRead d s)
    as Heq.
  { rewrite resourceSecurityUserUpdate_eq. cbv zeta. rewrite Hpw, Hprof.
    by destruct (resourceSecurityUserRead d s). }
  split; [exact Heq|]. rewrite Heq. apply resourceSecurityUserRead_calls.
Qed.

(** X5. When no write call fails, Update ends as a Read on the server the
    writes left behind: its result, its [d] and its server are those of
    that Read, and its calls are the write calls it issued followed by
    the one Get. *)
Theorem update_success_ends_with_read {S : Type} `{UserService S}
  (d : ResourceData) (s s1 s2 : S) :
  let id := d_Id d in
  let password := as_string (d_Get d "password") in
  let user := getSecurityUserFromResourceData d in
  let o := resourceSecurityUserUpdate d s in
  let r := resourceSecurityUserRead d s2 in
  (d_HasChange d "password" = false /\ s1 = s
   \/ d_HasChange d "password" = true
      /\ User_ChangePassword id password s = (None, s1)) ->
  (profileChanged d = false /\ s2 = s1
   \/ profileChanged d = true /\ User_Update id user s1 = (None, s2)) ->
  result o = result r /\ data o = data r /\ server o = server r
  /\ calls o
     = ((if d_HasChange d "password"
         then [CallChangePassword id password] else [])
        ++ (if profileChanged d then [CallUpdate id user] else [])
        ++ [CallGet id])%list.
Proof.
  intros id password user o r Hpw Hprof. subst o r.
  rewrite resourceSecurityUserUpdate_eq. cbv zeta. fold id password user.
  pose proof (resourceSecurityUserRead_calls d s2) as Hcalls. fold id in Hcalls.
  destruct Hpw as [[-> ->] | [-> ->]], Hprof as [[-> ->] | [-> ->]];
    cbn [result data server calls app]; rewrite Hcalls;
    repeat split; reflexivity.
Qed.

(** X11. Update reconciles [d] with the server: when no write call fails
    and the final Get returns a user with the profile of the record built
    from [d], Update returns nil and [d.Get] gives, under userid,
    firstname, lastname, email, status and roles, what it gave before the
    call; the password and the id are left as they were. *)
Theorem update_reconciles {S : Type} `{UserService S}
  (d : ResourceData) (s s1 s2 s3 : S) (u : User) :
  let id := d_Id d in
  let password := as_string (d_Get d "password") in
  let user := getSecurityUserFromResourceData d in
  let o := resourceSecurityUserUpdate d s in
  (d_HasChange d "password" = false /\ s1 = s
   \/ d_HasChange d "password" = true
      /\ User_ChangePassword id password s = (None, s1)) ->
  (profileChanged d = false /\ s2 = s1
   \/ profileChanged d = true /\ User_Update id user s1 = (None, s2)) ->
  User_Get id s2 = ((Some u, None), s3) ->
  sameProfile user u ->
  result o = None
  /\ (forall key,
         key ∈ ["userid"; "firstname"; "lastname"; "email"; "status"; "roles"] ->
         d_Get (data o) key = d_Get d key)
  /\ d_Get (data o) "password" = d_Get d "password"
  /\ d_Id (data o) = d_Id d
  /\ server o = s3.
Proof.
  intros id password user o Hpw Hprof Hget Hsame.
  assert (o = mkOutcome None (readBack u d) s3
                ((if d_HasChange d "password"
                  then [CallChangePassword id password] else [])
                 ++ (if profileChanged d then [CallUpdate id user] else [])
                 ++ [CallGet id])) as ->.
  { subst o. rewrite resourceSecurityUserUpdate_eq. cbv zeta.
    fold id password user.
    pose proof (resourceSecurityUserRead_eq d s2) as Hread.
    fold id in Hread. rewrite Hget in Hread.
    destruct Hpw as [[-> ->] | [-> ->]], Hprof as [[-> ->] | [-> ->]];
      cbn [fst snd]; rewrite Hread; reflexivity. }
  cbn [result data server].
  split; [reflexivity|].
  split; [intros key Hk; by apply readBack_sameProfile|].
  destruct (readBack_spec u d) as (_ & _ & _ & _ & _ & _ & Hp & _ & Hi).
  repeat split; assumption.
Qed.

(* ===================================================================== *)
(** ** What the callbacks leave alone, and Read twice                     *)
(* ===================================================================== *)

Lemma readBack_idempotent (u : User) (d : ResourceData) :
  readBack u (readBack u d) = readBack u d.
Proof.
  rewrite (readBack_eq u (readBack u d)), (readBack_eq u d).
  cbn [rd_id rd_state rd_plan rd_set]. f_equal.
  apply map_eq. intros k.
  destruct (decide (k = "userid")) as [->|]; [by rewrite !lookup_insert_eq|].
  do 2 (rewrite (lookup_insert_ne _ "userid") by done).
  destruct (decide (k = "status")) as [->|]; [by rewrite !lookup_insert_eq|].
  do 2 (rewrite (lookup_insert_ne _ "status") by done).
  destruct (decide (k = "roles")) as [->|]; [by rewrite !lookup_insert_eq|].
  do 2 (rewrite (lookup_insert_ne _ "roles") by done).
  destruct (decide (k = "lastname")) as [->|]; [by rewrite !lookup_insert_eq|].
  do 2 (rewrite (lookup_insert_ne _ "lastname") by done).
  destruct (decide (k = "firstname")) as [->|]; [by rewrite !lookup_insert_eq|].
  do 2 (rewrite (lookup_insert_ne _ "firstname") by done).
  destruct (decide (k = "email")) as [->|]; [by rewrite !lookup_insert_eq|].
  do 2 (rewrite (lookup_insert_ne _ "email") by done).
  repeat (rewrite lookup_insert_ne by done). reflexivity.
Qed.

Lemma d_HasChange_frame (d d' : ResourceData) (key : string) :
  rd_state d' = rd_state d -> rd_plan d' = rd_plan d ->
  d_HasChange d' key = d_HasChange d key.
Proof.
  intros Hs Hp. unfold d_HasChange, d_GetChange. by rewrite Hs, Hp.
Qed.

Lemma untouched_refl (d : ResourceData) : untouched d d.
Proof. by repeat split. Qed.

Lemma untouched_SetId (v : string) (d : ResourceData) :
  untouched d (d_SetId v d).
Proof. by repeat split. Qed.

Lemma untouched_readBack (u : User) (d0 d : ResourceData) :
  untouched d0 d -> untouched d0 (readBack u d).
Proof.
  intros (Hs & Hp & Hw). rewrite readBack_eq. unfold untouched.
  cbn [rd_state rd_plan rd_set].
  repeat (rewrite lookup_insert_ne by done). by repeat split.
Qed.

Lemma untouched_read {S : Type} `{UserService S}
  (d0 d : ResourceData) (s : S) :
  untouched d0 d -> untouched d0 (data (resourceSecurityUserRead d s)).
Proof.
  intros Hu. rewrite resourceSecurityUserRead_eq.
  destruct (User_Get (d_Id d) s) as [[[u|] [e|]] s']; cbn [data];
    first [by apply untouched_readBack | exact Hu].
Qed.

(** X6. No callback writes the password, the prior state or the planned
    values of [d]: after Create, Read, Update, Delete and Exists, on any
    server and whatever the client answers, these three are what they
    were, so [d.Get] of the password and [d.HasChange] of every key give
    what they gave before. *)
Theorem callbacks_leave_password_and_plan {S : Type} `{UserService S}
  (d : ResourceData) (s : S) :
  let keeps := fun d' : ResourceData =>
    rd_state d' = rd_state d
    /\ rd_plan d' = rd_plan d
    /\ rd_set d' !! "password" = rd_set d !! "password"
    /\ d_Get d' "password" = d_Get d "password"
    /\ forall key, d_HasChange d' key = d_HasChange d key in
  keeps (data (resourceSecurityUserCreate d s))
  /\ keeps (data (resourceSecurityUserRead d s))
  /\ keeps (data (resourceSecurityUserUpdate d s))
  /\ keeps (data (resourceSecurityUserDelete d s))
  /\ keeps (data (resourceSecurityUserExists d s)).
Proof.
  intros keeps.
  assert (forall d', untouched d d' -> keeps d') as Hkeeps.
  { intros d' (Hs & Hp & Hw). subst keeps. cbv beta.
    split; [exact Hs|]. split; [exact Hp|]. split; [exact Hw|].
    split; [|intros key; by apply d_HasChange_frame].
    unfold d_Get. by rewrite Hw, Hp. }
  split; [|split; [|split; [|split]]]; apply Hkeeps.
  - rewrite resourceSecurityUserCreate_eq. cbv zeta.
    destruct (User_Create _ s) as [[e|] s1]; cbn [data];
      [apply untouched_refl|].
    apply untouched_read, untouched_SetId.
  - apply untouched_read, untouched_refl.
  - rewrite resourceSecurityUserUpdate_eq. cbv zeta.
    destruct (if d_HasChange d "password" then _ else _) as [[[e|] s1] c1];
      [apply untouched_refl|].
    destruct (if profileChanged d then _ else _) as [[[e|] s2] c2];
      [apply untouched_refl|].
    cbn [data]. apply untouched_read, untouched_refl.
  - rewrite resourceSecurityUserDelete_eq.
    destruct (User_Delete (d_Id d) s) as [[e|] s1]; cbn [data];
      [apply untouched_refl | apply untouched_SetId].
  - rewrite resourceSecurityUserExists_eq. apply untouched_refl.
Qed.

(** X7. Read is idempotent on a server that answers the same: when Get
    returns the same user, without error, to a first Read and to a second
    one, the second Read leaves [d] exactly as the first one did. *)
Theorem read_twice_is_read_once {S : Type} `{UserService S}
  (d : ResourceData) (s s1 s2 : S) (u : User) :
  User_Get (d_Id d) s = ((Some u, None), s1) ->
  User_Get (d_Id d) s1 = ((Some u, None), s2) ->
  let o1 := resourceSecurityUserRead d s in
  let o2 := resourceSecurityUserRead (data o1) (server o1) in
  result o2 = None /\ data o2 = data o1.
Proof.
  intros Hget1 Hget2 o1 o2.
  assert (o1 = mkOutcome None (readBack u d) s1 [CallGet (d_Id d)]) as Ho1.
  { subst o1. by rewrite resourceSecurityUserRead_eq, Hget1. }
  subst o2. rewrite Ho1. cbn [data server].
  rewrite resourceSecurityUserRead_eq.
  assert (d_Id (readBack u d) = d_Id d) as -> by apply readBack_spec.
  rewrite Hget2. cbn [result data].
  split; [reflexivity | apply readBack_idempotent].
Qed.

(* ===================================================================== *)
(** ** Accepted configurations and the user built from them               *)
(* ===================================================================== *)

Lemma schema_required_keys (key : string) :
  key ∈ ["userid"; "firstname"; "lastname"; "email"; "password"] ->
  exists sch, resourceSecurityUserSchema !! key = Some sch
              /\ Type_ sch = TypeString /\ Required sch = true.
Proof.
  intros Hk.
  repeat (apply elem_of_cons in Hk as [-> | Hk];
          [vm_compute; eexists; repeat split; reflexivity |]).
  by apply elem_of_nil in Hk.
Qed.

Lemma schema_keys (key : string) (sch : Schema) :
  resourceSecurityUserSchema !! key = Some sch ->
  key ∈ ["userid"; "firstname"; "lastname"; "email"; "password"; "roles";
         "status"].
Proof.
  intros Hs. unfold resourceSecurityUserSchema in Hs.
  apply elem_of_list_to_map_2 in Hs.
  repeat (apply elem_of_cons in Hs as [[= -> _] | Hs]; [string_key |]).
  by apply elem_of_nil in Hs.
Qed.

(** A configuration without errors writes every required attribute, as a
    string. *)
Lemma valid_required (cfg : gmap string Value) (key : string) :
  schemaValidate resourceSecurityUserSchema cfg = [] ->
  key ∈ ["userid"; "firstname"; "lastname"; "email"; "password"] ->
  exists x, cfg !! key = Some (VString x).
Proof.
  intros Hvalid Hk.
  destruct (schema_required_keys key Hk) as (sch & Hs & Ht & Hr).
  pose proof (schemaValidate_field _ _ _ _ Hvalid Hs) as Hf.
  clear Hvalid Hs Hk. unfold validateField in Hf. rewrite Ht, Hr in Hf.
  destruct (cfg !! key) as [[|x|l|r]|]; cbn [typeOK] in Hf;
    first [by exists x | discriminate Hf].
Qed.

Lemma valid_roles (cfg : gmap string Value) :
  schemaValidate resourceSecurityUserSchema cfg = [] ->
  cfg !! "roles" = None \/ exists r, cfg !! "roles" = Some (VSet r).
Proof.
  intros Hvalid.
  destruct schema_roles_key as (sch & Hs & Ht & _).
  pose proof (schemaValidate_field _ _ _ _ Hvalid Hs) as Hf.
  clear Hvalid Hs. unfold validateField in Hf. rewrite Ht in Hf.
  destruct (cfg !! "roles") as [[|x|l|r]|]; cbn [typeOK] in Hf;
    first [by left | by right; exists r | discriminate Hf].
Qed.

Lemma valid_status (cfg : gmap string Value) :
  schemaValidate resourceSecurityUserSchema cfg = [] ->
  cfg !! "status" = None
  \/ cfg !! "status" = Some (VString "active")
  \/ cfg !! "status" = Some (VString "disabled").
Proof.
  intros Hvalid.
  pose proof (schemaValidate_field _ _ _ _ Hvalid schema_status) as Hf.
  clear Hvalid.
  destruct (cfg !! "status") as [v|]; [|by left].
  apply validateField_status in Hf; [|apply schema_status].
  destruct Hf as [-> | ->]; auto.
Qed.

Lemma bind_nil_intro {A B : Type} (f : A -> list B) (l : list A) :
  (forall x, x ∈ l -> f x = []) -> l ≫= f = [].
Proof.
  induction l as [|x l IH]; intros Hf; [reflexivity|].
  csimpl. rewrite (Hf x) by left. apply IH.
  intros y Hy. apply Hf. by right.
Qed.

(** X9. The configurations the schema accepts are exactly those that
    write userid, firstname, lastname, email and password as strings,
    write roles as a set or not at all, write status as "active" or
    "disabled" or not at all, and write nothing else. *)
Theorem schemaValidate_accepts_iff (cfg : gmap string Value) :
  schemaValidate resourceSecurityUserSchema cfg = []
  <-> (forall key,
          key ∈ ["userid"; "firstname"; "lastname"; "email"; "password"] ->
          exists x, cfg !! key = Some (VString x))
      /\ (cfg !! "roles" = None \/ exists r, cfg !! "roles" = Some (VSet r))
      /\ (cfg !! "status" = None
          \/ cfg !! "status" = Some (VString "active")
          \/ cfg !! "status" = Some (VString "disabled"))
      /\ (forall key v,
             cfg !! key = Some v ->
             key ∈ ["userid"; "firstname"; "lastname"; "email"; "password";
                    "roles"; "status"]).
Proof.
  split.
  - intros Hvalid.
    split; [intros key Hk; by apply valid_required|].
    split; [by apply valid_roles|].
    split; [by apply valid_status|].
    intros key v Hk.
    destruct (schemaValidate_known _ _ _ _ Hvalid Hk) as [sch Hs].
    by apply schema_keys with sch.
  - intros (Hreq & Hroles & Hstatus & Hknown).
    unfold schemaValidate. apply app_nil. split.
    + apply bind_nil_intro. intros [k sch] Hin.
      apply elem_of_map_to_list in Hin.
      unfold resourceSecurityUserSchema in Hin.
      apply elem_of_list_to_map_2 in Hin.
      assert (forall key,
                 key ∈ ["userid"; "firstname"; "lastname"; "email";
                        "password"] ->
                 forall d f,
                   validateField key
                     (mkSchema d TypeString None true false f
                               (bool_decide (key = "password")) None None)
                     (cfg !! key) = []) as Hfield.
      { intros key Hk d f. destruct (Hreq key Hk) as [x ->]. reflexivity. }
      repeat (apply elem_of_cons in Hin as [[= -> ->] | Hin];
              [first [ apply Hfield; string_key
                     | destruct Hroles as [-> | [r ->]]; reflexivity
                     | destruct Hstatus as [-> | [-> | ->]]; reflexivity ] |]).
      by apply elem_of_nil in Hin.
    + apply bind_nil_intro. intros [k v] Hin.
      apply elem_of_map_to_list in Hin.
      pose proof (Hknown k v Hin) as Hk. clear - Hk.
      repeat (apply elem_of_cons in Hk as [-> | Hk];
              [vm_compute; reflexivity |]).
      by apply elem_of_nil in Hk.
Qed.

(** X8. For a configuration the schema accepts, the user that
    [getSecurityUserFromResourceData] builds, and Create submits, has the
    five required strings of the configuration, a status that is the
    configured one or "active" when none is written, and so always one of
    "active" and "disabled", and as roles a duplicate-free listing of the
    configured set, empty when none is written. *)
Theorem submitted_user_of_valid_config (cfg : gmap string Value) :
  schemaValidate resourceSecurityUserSchema cfg = [] ->
  let u := getSecurityUserFromResourceData (newResourceData cfg) in
  cfg !! "userid" = Some (VString (UserID u))
  /\ cfg !! "firstname" = Some (VString (FirstName u))
  /\ cfg !! "lastname" = Some (VString (LastName u))
  /\ cfg !! "email" = Some (VString (EmailAddress u))
  /\ cfg !! "password" = Some (VString (Password u))
  /\ VString (Status u) = default (VString "active") (cfg !! "status")
  /\ (Status u = "active" \/ Status u = "disabled")
  /\ NoDup (Roles u)
  /\ VSet (list_to_set (Roles u)) = default (VSet ∅) (cfg !! "roles").
Proof.
  intros Hvalid u.
  assert (forall key,
             key ∈ ["userid"; "firstname"; "lastname"; "email"; "password"] ->
             cfg !! key
             = Some (VString (as_string (d_Get (newResourceData cfg) key))))
    as Hreq.
  { intros key Hk. destruct (valid_required cfg key Hvalid Hk) as [x Hx].
    by rewrite (d_Get_valid_config cfg key _ Hvalid Hx). }
  assert (VString (Status u) = default (VString "active") (cfg !! "status"))
    as Hst.
  { subst u. unfold getSecurityUserFromResourceData; cbn [Status].
    rewrite <- d_Get_TypeString by string_key.
    destruct (cfg !! "status") as [v|] eqn:Hs; cbn [default].
    - by apply d_Get_valid_config.
    - by apply d_Get_default_config. }
  repeat (split; [apply Hreq; string_key|]).
  split; [exact Hst|]. split.
  { revert Hst. generalize (Status u). intros x Hst.
    destruct (valid_status cfg Hvalid) as [Hs | [Hs | Hs]];
      rewrite Hs in Hst; cbn [default] in Hst; clear - Hst;
      injection Hst as ->; auto. }
  split.
  { subst u. unfold getSecurityUserFromResourceData, Set_List; cbn [Roles].
    rewrite interfaceSliceToStringSlice_box. apply NoDup_elements. }
  subst u. rewrite getSecurityUser_roles.
  destruct (cfg !! "roles") as [v|] eqn:Hr; cbn [default].
  - by apply d_Get_valid_config.
  - by apply d_Get_default_config.
Qed.

(* ===================================================================== *)
(** ** Import                                                             *)
(* ===================================================================== *)

(** X10. Import hands Read a [d] that holds the id and nothing else.  When
    the client returns a user for that id, Read returns nil, keeps the id
    and fills email, firstname, lastname, roles, status and userid from
    the user; the password of [d] is the empty string, whatever the
    server holds. *)
Theorem import_then_read {S : Type} `{UserService S}
  (id : string) (s s' : S) (user : User) :
  User_Get id s = ((Some user, None), s') ->
  let d := importResourceData (Importer resourceSecurityUser) id in
  let o := resourceSecurityUserRead d s in
  result o = None
  /\ d_Id (data o) = id
  /\ d_Get (data o) "email" = VString (EmailAddress user)
  /\ d_Get (data o) "firstname" = VString (FirstName user)
  /\ d_Get (data o) "lastname" = VString (LastName user)
  /\ d_Get (data o) "roles" = VSet (list_to_set (Roles user))
  /\ d_Get (data o) "status" = VString (Status user)
  /\ d_Get (data o) "userid" = VString (UserID user)
  /\ d_Get (data o) "password" = VString "".
Proof.
  intros Hget d o. subst o. rewrite resourceSecurityUserRead_eq.
  change (d_Id d) with id. rewrite Hget. cbn [result data].
  destruct (readBack_spec user d)
    as (He & Hf & Hl & Hr & Hs & Hu & Hp & _ & Hi).
  split; [reflexivity|]. split; [exact Hi|].
  repeat (split; [assumption|]).
  rewrite Hp. destruct (schema_string_keys "password") as (sch & Hk & Ht);
    [string_key|].
  unfold d_Get. rewrite Hk. subst d. cbn [importResourceData Importer
    resourceSecurityUser rd_set rd_plan].
  rewrite !lookup_empty. unfold readField. by rewrite Ht.
Qed.

(* ===================================================================== *)
(** ** After Create                                                       *)
(* ===================================================================== *)

(** X12. After a Create whose create call succeeded and whose Get found
    the user, every callback run on the resulting [d] addresses the
    userid that was submitted: Read and Exists ask for it, Delete deletes
    it, and each call of Update is keyed by it. *)
Theorem callbacks_after_create_address_userid {S : Type} `{UserService S}
  (d : ResourceData) (s s1 s2 : S) (u1 : User) :
  let user := getSecurityUserFromResourceData d in
  let d1 := data (resourceSecurityUserCreate d s) in
  User_Create user s = (None, s1) ->
  User_Get (UserID user) s1 = ((Some u1, None), s2) ->
  d_Id d1 = UserID user
  /\ forall s' : S,
      calls (resourceSecurityUserRead d1 s') = [CallGet (UserID user)]
      /\ calls (resourceSecurityUserExists d1 s') = [CallGet (UserID user)]
      /\ calls (resourceSecurityUserDelete d1 s') = [CallDelete (UserID user)]
      /\ Forall (fun c => callKey c = UserID user)
                (calls (resourceSecurityUserUpdate d1 s')).
Proof.
  intros user d1 Hc Hg.
  assert (d_Id d1 = UserID user) as Hid.
  { subst d1. rewrite resourceSecurityUserCreate_eq. cbv zeta. fold user.
    rewrite Hc, resourceSecurityUserRead_eq.
    cbn [d_Id d_SetId rd_id]. rewrite Hg. cbn [data]. unfold d_Id.
    destruct (readBack_spec u1 (d_SetId (UserID user) d))
      as (_ & _ & _ & _ & _ & _ & _ & _ & ->).
    reflexivity. }
  split; [exact Hid|]. intros s'. rewrite <- Hid.
  split; [apply resourceSecurityUserRead_calls|].
  split; [by rewrite resourceSecurityUserExists_eq|].
  split; [|apply resourceSecurityUserUpdate_keys].
  rewrite resourceSecurityUserDelete_eq.
  by destruct (User_Delete (d_Id d1) s') as [[e|] s3].
Qed.

(* ===================================================================== *)
(** ** These theorems at the header's example                             *)
(* ===================================================================== *)

Lemma read_error_surfaced_witness :
  let s := adminServer (failOn isCallGet "timeout") in
  User_Get (d_Id adminChange3) s = ((None, Some "timeout"), s)
  /\ result (resourceSecurityUserRead adminChange3 s) = Some "timeout"
  /\ data (resourceSecurityUserRead adminChange3 s) = adminChange3.
Proof.
  cbv zeta.
  assert (User_Get (d_Id adminChange3)
            (adminServer (failOn isCallGet "timeout"))
          = ((None, Some "timeout"),
             adminServer (failOn isCallGet "timeout"))) as H1
    by reflexivity.
  split; [exact H1|].
  destruct (read_error_surfaced _ _ _ _ _ H1) as (Hr & Hd & _).
  split; [exact Hr | exact Hd].
Defined.

Lemma create_success_path_witness :
  let d := newResourceData adminConfig in
  let s := serverWith [] (failOn isCallGet "timeout") in
  let s1 := setUsers (<["admin" := adminUser]> (users s)) s in
  User_Create (getSecurityUserFromResourceData d) s = (None, s1)
  /\ calls (resourceSecurityUserCreate d s)
     = [CallCreate (getSecurityUserFromResourceData d);
        CallGet (UserID (getSecurityUserFromResourceData d))].
Proof.
  cbv zeta.
  assert (User_Create
            (getSecurityUserFromResourceData (newResourceData adminConfig))
            (serverWith [] (failOn isCallGet "timeout"))
          = (None,
             setUsers (<["admin" := adminUser]>
                         (users (serverWith [] (failOn isCallGet "timeout"))))
                      (serverWith [] (failOn isCallGet "timeout")))) as H1
    by (vm_compute; reflexivity).
  split; [exact H1|].
  exact (proj1 (create_success_path _ _ _ H1)).
Defined.

Lemma update_without_change_is_read_witness :
  d_HasChange adminChangeUserid "userid" = true
  /\ d_HasChange adminChangeUserid "password" = false
  /\ profileChanged adminChangeUserid = false
  /\ calls (resourceSecurityUserUpdate adminChangeUserid (adminServer noFault))
     = [CallGet (d_Id adminChangeUserid)].
Proof.
  assert (d_HasChange adminChangeUserid "password" = false) as H1
    by (vm_compute; reflexivity).
  assert (profileChanged adminChangeUserid = false) as H2
    by (vm_compute; reflexivity).
  split; [vm_compute; reflexivity|].
  split; [exact H1|]. split; [exact H2|].
  exact (proj2 (update_without_change_is_read adminChangeUserid
                  (adminServer noFault) H1 H2)).
Defined.

Lemma update_success_ends_with_read_witness :
  let s := adminServer noFault in
  let s1 := snd (User_ChangePassword "admin" "s3cret" s) in
  let s2 := snd (User_Update "admin"
                   (getSecurityUserFromResourceData adminChange2) s1) in
  result (resourceSecurityUserUpdate adminChange2 s)
  = result (resourceSecurityUserRead adminChange2 s2)
  /\ data (resourceSecurityUserUpdate adminChange2 s)
     = data (resourceSecurityUserRead adminChange2 s2).
Proof.
  cbv zeta.
  destruct (update_success_ends_with_read adminChange2 (adminServer noFault)
              (snd (User_ChangePassword "admin" "s3cret" (adminServer noFault)))
              (snd (User_Update "admin"
                      (getSecurityUserFromResourceData adminChange2)
                      (snd (User_ChangePassword "admin" "s3cret"
                              (adminServer noFault))))))
    as (Hr & Hd & _).
  - right. split; vm_compute; reflexivity.
  - right. split; vm_compute; reflexivity.
  - split; [exact Hr | exact Hd].
Defined.

Lemma update_reconciles_witness :
  let s := adminServer noFault in
  let o := resourceSecurityUserUpdate adminChange2 s in
  result o = None
  /\ d_Get (data o) "email" = d_Get adminChange2 "email"
  /\ d_Get (data o) "password" = d_Get adminChange2 "password".
Proof.
  cbv zeta.
  destruct (update_reconciles adminChange2 (adminServer noFault)
              (snd (User_ChangePassword "admin" "s3cret" (adminServer noFault)))
              (snd (User_Update "admin"
                      (getSecurityUserFromResourceData adminChange2)
                      (snd (User_ChangePassword "admin" "s3cret"
                              (adminServer noFault)))))
              (snd (User_Update "admin"
                      (getSecurityUserFromResourceData adminChange2)
                      (snd (User_ChangePassword "admin" "s3cret"
                              (adminServer noFault)))))
              (withPassword ""
                 (getSecurityUserFromResourceData adminChange2)))
    as (Hr & Hk & Hp & _).
  - right. split; vm_compute; reflexivity.
  - right. split; vm_compute; reflexivity.
  - vm_compute; reflexivity.
  - vm_compute. repeat split.
  - split; [exact Hr|]. split; [apply Hk; string_key | exact Hp].
Defined.

Lemma read_twice_is_read_once_witness :
  let s := adminServer noFault in
  let u := withPassword "" adminUser in
  User_Get (d_Id adminChange3) s = ((Some u, None), s)
  /\ data (resourceSecurityUserRead
             (data (resourceSecurityUserRead adminChange3 s))
             (server (resourceSecurityUserRead adminChange3 s)))
     = data (resourceSecurityUserRead adminChange3 s).
Proof.
  cbv zeta.
  assert (User_Get (d_Id adminChange3) (adminServer noFault)
          = ((Some (withPassword "" adminUser), None), adminServer noFault))
    as H1 by (vm_compute; reflexivity).
  split; [exact H1|].
  exact (proj2 (read_twice_is_read_once adminChange3 _ _ _ _ H1 H1)).
Defined.

Lemma schemaValidate_accepts_iff_witness :
  schemaValidate resourceSecurityUserSchema adminConfig = []
  /\ (adminConfig !! "roles" = None
      \/ exists r, adminConfig !! "roles" = Some (VSet r))
  /\ schemaValidate resourceSecurityUserSchema noStatusConfig = [].
Proof.
  assert (schemaValidate resourceSecurityUserSchema adminConfig = []) as H1
    by (vm_compute; reflexivity).
  split; [exact H1|].
  split;
    [exact (proj1 (proj2 (proj1 (schemaValidate_accepts_iff adminConfig) H1)))|].
  clear H1.
  apply (proj2 (schemaValidate_accepts_iff noStatusConfig)).
  split.
  { intros key Hk.
    repeat (apply elem_of_cons in Hk as [-> | Hk];
            [eexists; vm_compute; reflexivity |]).
    apply elem_of_nil in Hk. destruct Hk. }
  split; [right; eexists; vm_compute; reflexivity|].
  split; [left; vm_compute; reflexivity|].
  intros key v Hk. unfold noStatusConfig in Hk.
  apply lookup_delete_Some in Hk as [_ Hk].
  unfold adminConfig in Hk. apply elem_of_list_to_map_2 in Hk.
  repeat (apply elem_of_cons in Hk as [[= -> _] | Hk]; [string_key |]).
  apply elem_of_nil in Hk. destruct Hk.
Defined.

Lemma submitted_user_of_valid_config_witness :
  schemaValidate resourceSecurityUserSchema noStatusConfig = []
  /\ (let u := getSecurityUserFromResourceData (newResourceData noStatusConfig) in
      VString (Status u) = VString "active" /\ NoDup (Roles u)).
Proof.
  assert (schemaValidate resourceSecurityUserSchema noStatusConfig = [])
    as H1 by (vm_compute; reflexivity).
  split; [exact H1|].
  destruct (submitted_user_of_valid_config noStatusConfig H1)
    as (_ & _ & _ & _ & _ & Hst & _ & Hnd & _).
  cbv zeta. split; [|exact Hnd].
  rewrite Hst. vm_compute. reflexivity.
Defined.

Lemma import_then_read_witness :
  let s := adminServer noFault in
  let d := importResourceData ImportStatePassthrough "admin" in
  User_Get "admin" s = ((Some (withPassword "" adminUser), None), s)
  /\ d_Get (data (resourceSecurityUserRead d s)) "email"
     = VString "nexus@example.com"
  /\ d_Get (data (resourceSecurityUserRead d s)) "password" = VString "".
Proof.
  cbv zeta.
  assert (User_Get "admin" (adminServer noFault)
          = ((Some (withPassword "" adminUser), None), adminServer noFault))
    as H1 by (vm_compute; reflexivity).
  split; [exact H1|].
  destruct (import_then_read "admin" _ _ _ H1)
    as (_ & _ & He & _ & _ & _ & _ & _ & Hp).
  split; [exact He | exact Hp].
Defined.

Lemma callbacks_after_create_address_userid_witness :
  let d := newResourceData adminConfig in
  let s1 := setUsers (<["admin" := adminUser]> (users emptyServer))
              emptyServer in
  User_Create (getSecurityUserFromResourceData d) emptyServer = (None, s1)
  /\ User_Get (UserID (getSecurityUserFromResourceData d)) s1
     = ((Some (withPassword "" adminUser), None), s1)
  /\ d_Id (data (resourceSecurityUserCreate d emptyServer))
     = UserID (getSecurityUserFromResourceData d).
Proof.
  cbv zeta.
  assert (User_Create
            (getSecurityUserFromResourceData (newResourceData adminConfig))
            emptyServer
          = (None, setUsers (<["admin" := adminUser]> (users emptyServer))
                            emptyServer)) as H1
    by (vm_compute; reflexivity).
  assert (User_Get
            (UserID (getSecurityUserFromResourceData
                       (newResourceData adminConfig)))
            (setUsers (<["admin" := adminUser]> (users emptyServer))
                      emptyServer)
          = ((Some (withPassword "" adminUser), None),
             setUsers (<["admin" := adminUser]> (users emptyServer))
                      emptyServer)) as H2
    by (vm_compute; reflexivity).
  split; [exact H1|]. split; [exact H2|].
  exact (proj1 (callbacks_after_create_address_userid _ _ _ _ _ H1 H2)).
Defined.
